(** * AiGmSleeperStack: the CDK stack of the ai-gm repository

    The repository is a single AWS CDK application: [bin/app.ts] instantiates
    the stack class [AiGmSleeperStack], whose constructor reads six values
    from the deploy-time context and declares a bucket, Python functions,
    scheduler roles, schedules and outputs.

    Two revisions of the constructor are in the sources:
    - [src/infra/lib/ai-gm-stack.ts] (module [Lib] below), and
    - the listing in [src/infra/README.md], lines 23-150 (module [Listing]),
      which adds the orchestrator function, the hourly schedule and the
      guard on the roster schedule.

    The constructor is embedded as a program in a state-and-error monad over
    the construct tree of the stack.  The JavaScript operators it applies to
    context values ([||], [??], [Number], template literals and
    [JSON.stringify]) are embedded in module [JS]. *)

From Stdlib Require Import ZArith Bool List Ascii String Lia.
From Stdlib Require Import Floats.SpecFloat Numbers.DecimalString.
From stdpp Require Import base option gmap strings.

Local Open Scope string_scope.
Local Open Scope Z_scope.

(* ===================================================================== *)
(** * JavaScript values and the operators used by the constructor         *)
(* ===================================================================== *)

Module JS.

(** A JavaScript Number is an IEEE 754 binary64 value. *)
Definition prec : Z := 53.
Definition emax : Z := 1024.

Abbreviation number := spec_float.

Definition NaN : number := S754_nan.
Definition Infinity : number := S754_infinity false.
Definition pos_zero : number := S754_zero false.

Definition is_finite (x : number) : bool :=
  match x with
  | S754_nan | S754_infinity _ => false
  | S754_zero _ | S754_finite _ _ _ => true
  end.

Definition is_nan (x : number) : bool :=
  match x with S754_nan => true | _ => false end.

(** The Number value for an integer (round to nearest, ties to even). *)
Definition number_of_Z (z : Z) : number := binary_normalize prec emax z 0 false.

(** The Number value for the positive rational [p / q]. *)
Definition round_ratio (neg : bool) (p q : positive) : number :=
  let '(m, e, l) := SFdiv_core_binary prec emax (Zpos p) 0 (Zpos q) 0 in
  binary_round_aux prec emax neg m e l.

(** Number of decimal digits of a positive integer. *)
Fixpoint decimal_length_fuel (fuel : nat) (n : Z) : Z :=
  match fuel with
  | O => 0
  | S fuel' => if n <? 10 then 1 else 1 + decimal_length_fuel fuel' (n / 10)
  end.

Definition decimal_length (p : positive) : Z :=
  decimal_length_fuel (Pos.to_nat (Pos.size p)) (Zpos p).

(** The Number value for the decimal [m * 10 ^ e10]; the sign is kept on a
    zero result.  Values beyond the binary64 range are settled without
    building the power of ten. *)
Definition decimal_value (neg : bool) (m : N) (e10 : Z) : number :=
  match m with
  | N0 => S754_zero neg
  | Npos p =>
      let magnitude := decimal_length p + e10 in
      if 310 <? magnitude then S754_infinity neg
      else if magnitude <? -330 then S754_zero neg
      else if 0 <=? e10
           then binary_normalize prec emax
                  (cond_Zopp neg (Zpos p * 10 ^ e10)) 0 neg
           else round_ratio neg p (Z.to_pos (10 ^ (- e10)))
  end.

(** ** StringToNumber *)

(** WhiteSpace and LineTerminator code points, in UTF-8. *)
Definition byte (n : nat) : string := String (ascii_of_nat n) "".

Definition white_space : list string :=
  [ byte 9; byte 10; byte 11; byte 12; byte 13; byte 32;
    byte 194 +:+ byte 160;                      (* U+00A0 *)
    byte 225 +:+ byte 154 +:+ byte 128;         (* U+1680 *)
    byte 226 +:+ byte 128 +:+ byte 128; byte 226 +:+ byte 128 +:+ byte 129;
    byte 226 +:+ byte 128 +:+ byte 130; byte 226 +:+ byte 128 +:+ byte 131;
    byte 226 +:+ byte 128 +:+ byte 132; byte 226 +:+ byte 128 +:+ byte 133;
    byte 226 +:+ byte 128 +:+ byte 134; byte 226 +:+ byte 128 +:+ byte 135;
    byte 226 +:+ byte 128 +:+ byte 136; byte 226 +:+ byte 128 +:+ byte 137;
    byte 226 +:+ byte 128 +:+ byte 138;         (* U+2000 .. U+200A *)
    byte 226 +:+ byte 128 +:+ byte 168; byte 226 +:+ byte 128 +:+ byte 169;
                                                (* U+2028, U+2029 *)
    byte 226 +:+ byte 128 +:+ byte 175;         (* U+202F *)
    byte 226 +:+ byte 129 +:+ byte 159;         (* U+205F *)
    byte 227 +:+ byte 128 +:+ byte 128;         (* U+3000 *)
    byte 239 +:+ byte 187 +:+ byte 191 ].       (* U+FEFF *)

Fixpoint strip_prefix (p s : string) : option string :=
  match p, s with
  | EmptyString, _ => Some s
  | String a p', String b s' => if Ascii.eqb a b then strip_prefix p' s' else None
  | String _ _, EmptyString => None
  end.

Fixpoint strip_any (ps : list string) (s : string) : option string :=
  match ps with
  | [] => None
  | p :: ps' =>
      match strip_prefix p s with
      | Some r => Some r
      | None => strip_any ps' s
      end
  end.

Fixpoint trim_start_fuel (ws : list string) (fuel : nat) (s : string) : string :=
  match fuel with
  | O => s
  | S fuel' =>
      match strip_any ws s with
      | Some r => trim_start_fuel ws fuel' r
      | None => s
      end
  end.

Definition trim_start (s : string) : string :=
  trim_start_fuel white_space (String.length s) s.

Definition trim_end (s : string) : string :=
  String.rev
    (trim_start_fuel (map String.rev white_space) (String.length s) (String.rev s)).

Definition trim (s : string) : string := trim_end (trim_start s).

Definition digit_value (base : N) (c : ascii) : option N :=
  let n := N_of_ascii c in
  let d :=
    if (48 <=? n)%N && (n <=? 57)%N then Some (n - 48)%N
    else if (97 <=? n)%N && (n <=? 102)%N then Some (n - 87)%N
    else if (65 <=? n)%N && (n <=? 70)%N then Some (n - 55)%N
    else None in
  match d with
  | Some v => if (v <? base)%N then Some v else None
  | None => None
  end.

(** Reads the longest prefix of digits of the given base: the value read so
    far, the number of digits and the rest of the string. *)
Fixpoint read_digits (base : N) (s : string) (acc : N) (count : Z)
  : N * Z * string :=
  match s with
  | EmptyString => (acc, count, s)
  | String c s' =>
      match digit_value base c with
      | Some d => read_digits base s' (acc * base + d)%N (count + 1)
      | None => (acc, count, s)
      end
  end.

(** NonDecimalIntegerLiteral: [0x], [0o] and [0b] literals, unsigned. *)
Definition non_decimal_literal (s : string) : option number :=
  match s with
  | String "0" (String c rest) =>
      let base : option N :=
        if Ascii.eqb c "x" || Ascii.eqb c "X" then Some 16%N
        else if Ascii.eqb c "o" || Ascii.eqb c "O" then Some 8%N
        else if Ascii.eqb c "b" || Ascii.eqb c "B" then Some 2%N
        else None in
      match base with
      | Some b =>
          match read_digits b rest 0%N 0 with
          | (v, n, EmptyString) =>
              if 0 <? n then Some (number_of_Z (Z.of_N v)) else Some NaN
          | _ => Some NaN
          end
      | None => None
      end
  | _ => None
  end.

(** ExponentPart_opt at the end of a decimal literal. *)
Definition exponent_part (s : string) : option Z :=
  match s with
  | EmptyString => Some 0
  | String c rest =>
      if Ascii.eqb c "e" || Ascii.eqb c "E" then
        let '(neg, ds) :=
          match rest with
          | String "+" r => (false, r)
          | String "-" r => (true, r)
          | _ => (false, rest)
          end in
        match read_digits 10 ds 0%N 0 with
        | (v, n, EmptyString) =>
            if 0 <? n then Some (cond_Zopp neg (Z.of_N v)) else None
        | _ => None
        end
      else None
  end.

(** StrUnsignedDecimalLiteral. *)
Definition unsigned_decimal_literal (neg : bool) (s : string) : number :=
  if String.eqb s "Infinity" then S754_infinity neg
  else
    let '(int_part, int_len, after_int) := read_digits 10 s 0%N 0 in
    let '(mantissa, frac_len, after_frac) :=
      match after_int with
      | String "." r => read_digits 10 r int_part 0
      | _ => (int_part, 0, after_int)
      end in
    if (int_len =? 0) && (frac_len =? 0) then NaN
    else
      match exponent_part after_frac with
      | Some e => decimal_value neg mantissa (e - frac_len)
      | None => NaN
      end.

Definition StringToNumber (str : string) : number :=
  let s := trim str in
  match s with
  | EmptyString => pos_zero
  | String c rest =>
      match non_decimal_literal s with
      | Some n => n
      | None =>
          if Ascii.eqb c "+" then unsigned_decimal_literal false rest
          else if Ascii.eqb c "-" then unsigned_decimal_literal true rest
          else unsigned_decimal_literal false s
      end
  end.

(** ** Number::toString, radix 10 *)

(** Order of the positive binary value [m * 2 ^ e] and the decimal value
    [s * 10 ^ j], by cross multiplication. *)
Definition scaled_numerator (m : positive) (e j : Z) : Z :=
  Zpos m * 2 ^ Z.max e 0 * 10 ^ Z.max (- j) 0.

Definition scaled_denominator (e j : Z) : Z :=
  2 ^ Z.max (- e) 0 * 10 ^ Z.max j 0.

Definition below_pow10 (m : positive) (e n : Z) : bool :=
  scaled_numerator m e n <? scaled_denominator e n.

(** The least [n] with [m * 2 ^ e < 10 ^ n], searched upwards from an
    estimate that is never above it. *)
Fixpoint decimal_exponent_fuel (fuel : nat) (m : positive) (e n : Z) : Z :=
  match fuel with
  | O => n
  | S fuel' =>
      if below_pow10 m e n then n else decimal_exponent_fuel fuel' m e (n + 1)
  end.

Definition decimal_exponent (m : positive) (e : Z) : Z :=
  let b := Z.log2 (Zpos m) + e in
  decimal_exponent_fuel 8 m e ((b * 30103) / 100000 - 2).

(** The digits [s] of length [k] closest to [m * 2 ^ e * 10 ^ (k - n)] whose
    decimal reads back as the same Number, if there is one. *)
Definition digits_candidate (m : positive) (e n k : Z) : option Z :=
  let x := S754_finite false m e in
  let num := scaled_numerator m e (n - k) in
  let den := scaled_denominator e (n - k) in
  let lo := num / den in
  let hi := lo + 1 in
  let reads_back (s : Z) := SFeqb (decimal_value false (Z.to_N s) (n - k)) x in
  match (0 <? lo) && reads_back lo, reads_back hi with
  | true, true =>
      match (2 * (num mod den)) ?= den with
      | Lt => Some lo
      | Gt => Some hi
      | Eq => if Z.even lo then Some lo else Some hi
      end
  | true, false => Some lo
  | false, true => Some hi
  | false, false => None
  end.

Fixpoint shortest_digits_fuel (fuel : nat) (m : positive) (e n k : Z)
  : Z * Z * Z :=
  match fuel with
  | O => (Zpos m, k, n)
  | S fuel' =>
      match digits_candidate m e n k with
      | Some s => if s =? 10 ^ k then (10 ^ (k - 1), k, n + 1) else (s, k, n)
      | None => shortest_digits_fuel fuel' m e n (k + 1)
      end
  end.

(** The integers [s], [k] and [n] of Number::toString: [k] is as small as
    possible, [s] has [k] digits and [s * 10 ^ (n - k)] is the Number. *)
Definition shortest_digits (m : positive) (e : Z) : Z * Z * Z :=
  shortest_digits_fuel 17 m e (decimal_exponent m e) 1.

Definition decimal_string (z : Z) : string :=
  NilZero.string_of_uint (N.to_uint (Z.to_N z)).

Definition zeros (n : Z) : string :=
  string_of_list_ascii (repeat "0"%char (Z.to_nat n)).

Definition take (n : Z) (s : string) : string := String.substring 0 (Z.to_nat n) s.
Definition drop (n : Z) (s : string) : string :=
  String.substring (Z.to_nat n) (String.length s - Z.to_nat n) s.

Definition number_layout (s k n : Z) : string :=
  let ds := decimal_string s in
  if (k <=? n) && (n <=? 21) then ds +:+ zeros (n - k)
  else if (0 <? n) && (n <=? 21) then take n ds +:+ "." +:+ drop n ds
  else if (-6 <? n) && (n <=? 0) then "0." +:+ zeros (- n) +:+ ds
  else
    let exponent :=
      "e" +:+ (if 0 <=? n - 1 then "+" else "-") +:+ decimal_string (Z.abs (n - 1)) in
    if k =? 1 then ds +:+ exponent
    else take 1 ds +:+ "." +:+ drop 1 ds +:+ exponent.

Definition NumberToString (x : number) : string :=
  match x with
  | S754_nan => "NaN"
  | S754_zero _ => "0"
  | S754_infinity neg => if neg then "-Infinity" else "Infinity"
  | S754_finite neg m e =>
      let '(s, k, n) := shortest_digits m e in
      (if neg then "-" else "") +:+ number_layout s k n
  end.

(** ** Values held by the context, and the operators applied to them *)

(** A context value is absent ([undefined]) or a JSON primitive: the command
    line ([-c key=value]) supplies strings, [cdk.json] may also hold numbers,
    booleans and [null]. *)
Inductive any :=
  | undefined
  | null
  | JBool (b : bool)
  | JNum (n : number)
  | JStr (s : string).

(** ToBoolean *)
Definition truthy (v : any) : bool :=
  match v with
  | undefined | null => false
  | JBool b => b
  | JNum (S754_zero _) | JNum S754_nan => false
  | JNum _ => true
  | JStr EmptyString => false
  | JStr _ => true
  end.

(** [a || b] *)
Definition or_else (a b : any) : any := if truthy a then a else b.

(** [a ?? b] *)
Definition coalesce (a b : any) : any :=
  match a with
  | undefined | null => b
  | _ => a
  end.

Declare Scope js_scope.
Delimit Scope js_scope with js.
Notation "a '||' b" := (or_else a b) (at level 50, left associativity) : js_scope.
Notation "a '??' b" := (coalesce a b) (at level 50, left associativity) : js_scope.

(** [Number(v)] *)
Definition Number (v : any) : number :=
  match v with
  | undefined => NaN
  | null => pos_zero
  | JBool true => number_of_Z 1
  | JBool false => pos_zero
  | JNum n => n
  | JStr s => StringToNumber s
  end.

(** A numeric literal of the source. *)
Definition num (z : Z) : any := JNum (number_of_Z z).

(** ** JSON.stringify *)

Definition hex_digit (n : N) : ascii :=
  ascii_of_N (if (n <? 10)%N then 48 + n else 87 + n)%N.

Definition quote_char (c : ascii) : string :=
  let n := N_of_ascii c in
  if (n =? 8)%N then "\b"
  else if (n =? 9)%N then "\t"
  else if (n =? 10)%N then "\n"
  else if (n =? 12)%N then "\f"
  else if (n =? 13)%N then "\r"
  else if (n =? 34)%N then String "\" (String c "")
  else if (n =? 92)%N then "\\"
  else if (n <? 32)%N
       then "\u00" +:+ String (hex_digit (n / 16)) (String (hex_digit (n mod 16)) "")
  else String c "".

Fixpoint quote_chars (s : string) : string :=
  match s with
  | EmptyString => EmptyString
  | String c s' => quote_char c +:+ quote_chars s'
  end.

Definition QuoteJSONString (s : string) : string :=
  String (ascii_of_nat 34) (quote_chars s) +:+ byte 34.

(** SerializeJSONProperty on a primitive: nothing for [undefined]. *)
Definition SerializeJSONProperty (v : any) : option string :=
  match v with
  | undefined => None
  | null => Some "null"
  | JBool b => Some (if b then "true" else "false")
  | JNum n => Some (if is_finite n then NumberToString n else "null")
  | JStr s => Some (QuoteJSONString s)
  end.

(** An object literal is the list of its properties in source order. *)
Definition object := list (string * any).

(** The serialized properties of an object: a property whose value is
    [undefined] is left out. *)
Definition serialized_properties (o : object) : list (string * string) :=
  omap (fun '(k, v) => pair k <$> SerializeJSONProperty v) o.

Fixpoint join (sep : string) (parts : list string) : string :=
  match parts with
  | [] => ""
  | [x] => x
  | x :: rest => x +:+ sep +:+ join sep rest
  end.

(** [JSON.stringify(o)] for an object literal of primitives, without
    indentation. *)
Definition JSON_stringify (o : object) : string :=
  "{" +:+ join "," (map (fun '(k, s) => QuoteJSONString k +:+ ":" +:+ s)
                        (serialized_properties o)) +:+ "}".

(** The keys that appear in [JSON.stringify(o)]. *)
Definition serialized_keys (o : object) : list string :=
  map fst (serialized_properties o).

End JS.

(* ===================================================================== *)
(** * The CDK constructs the stack declares                               *)
(* ===================================================================== *)

(** The construct tree ([constructs], [aws-cdk-lib]): a construct is declared
    in a scope under an id, and a second construct under the same id is
    refused.  Only the properties the stack sets are kept; an optional
    property is an [option]. *)

Definition id := string.

Module cdk.

(** Attributes of a construct that resolve at deploy time. *)
Inductive Token :=
  | BucketName (bucket : id)
  | FunctionArn (fn : id)
  | FunctionName (fn : id)
  | RoleArn (role : id).

(** A string-typed property: a value computed at synthesis, or a token. *)
Inductive text :=
  | literal (v : JS.any)
  | token (t : Token).

Inductive Duration :=
  | days (amount : Z)
  | seconds (amount : Z).

Inductive RemovalPolicy := DESTROY | RETAIN | SNAPSHOT | RETAIN_ON_UPDATE_OR_DELETE.

Record CfnOutputProps := { value : Token }.

End cdk.

Module path.
(** [path.join(...)], kept as the call with its segments. *)
Inductive t := join (segments : list string).
End path.

Module s3.

Inductive BlockPublicAccess := BLOCK_ALL | BLOCK_ACLS.
Inductive BucketEncryption := UNENCRYPTED | S3_MANAGED | KMS_MANAGED | KMS | DSSE.

Record LifecycleRule := {
  id : option string;
  noncurrentVersionExpiration : option cdk.Duration;
}.

Record BucketProps := {
  versioned : option bool;
  blockPublicAccess : option BlockPublicAccess;
  encryption : option BucketEncryption;
  lifecycleRules : list LifecycleRule;
  removalPolicy : option cdk.RemovalPolicy;
  autoDeleteObjects : option bool;
}.

End s3.

Module logs.
Inductive RetentionDays := ONE_DAY | THREE_DAYS | FIVE_DAYS | ONE_WEEK | TWO_WEEKS.
End logs.

Module lambda.

Inductive Runtime := PYTHON_3_11 | PYTHON_3_12 | PYTHON_3_13.
Inductive Architecture := X86_64 | ARM_64.

(** [PythonFunctionProps] of [@aws-cdk/aws-lambda-python-alpha]. *)
Record PythonFunctionProps := {
  entry : path.t;
  index : option string;
  handler : option string;
  runtime : Runtime;
  architecture : option Architecture;
  memorySize : option Z;
  timeout : option cdk.Duration;
  environment : gmap string cdk.text;
  logRetention : option logs.RetentionDays;
}.

End lambda.

Module iam.

Inductive Principal :=
  | ServicePrincipal (service : string)
  | AccountRootPrincipal
  | AnyPrincipal.

Record RoleProps := { assumedBy : Principal }.

End iam.

Module scheduler.

Record FlexibleTimeWindow := { mode : string }.

Record Target := {
  arn : cdk.Token;
  roleArn : cdk.Token;
  input : option string;
}.

Record CfnScheduleProps := {
  flexibleTimeWindow : FlexibleTimeWindow;
  scheduleExpressionTimezone : option string;
  scheduleExpression : string;
  target : Target;
  description : option string;
}.

End scheduler.

Module constructs.

Inductive Construct :=
  | Bucket (props : s3.BucketProps)
  | PythonFunction (props : lambda.PythonFunctionProps)
  | Role (props : iam.RoleProps)
  | CfnSchedule (props : scheduler.CfnScheduleProps)
  | CfnOutput (props : cdk.CfnOutputProps).

(** What a [grant...] call adds to the policy of the grantee. *)
Inductive Grant :=
  | ReadWrite (bucket grantee : id)
  | Invoke (fn grantee : id).

(** The state of a scope: its children in declaration order, and the
    grants made so far. *)
Record Stack := {
  children : list (id * Construct);
  grants : list Grant;
}.

Definition empty : Stack := {| children := []; grants := [] |}.

Inductive result (A : Type) :=
  | Ok (a : A)
  | Throw (message : string).
Arguments Ok {A} a.
Arguments Throw {A} message.

(** Code that runs inside a constructor: it may add to the scope, and it
    may throw. *)
Definition M (A : Type) : Type := Stack -> result (A * Stack).

Definition ret {A} (a : A) : M A := fun st => Ok (a, st).

Definition bind {A B} (c : M A) (k : A -> M B) : M B :=
  fun st =>
    match c st with
    | Ok (a, st') => k a st'
    | Throw m => Throw m
    end.

Definition has_child (i : id) (st : Stack) : bool :=
  existsb (String.eqb i) (map fst (children st)).

(** [new C(this, i, props)]: returns the handle of the new construct. *)
Definition new (i : id) (c : Construct) : M id :=
  fun st =>
    if has_child i st
    then Throw ("There is already a Construct with name '" +:+ i +:+ "'")
    else Ok (i, {| children := children st ++ [(i, c)]; grants := grants st |}).

Definition grant (g : Grant) : M unit :=
  fun st => Ok (tt, {| children := children st; grants := grants st ++ [g] |}).

(** [bucket.grantReadWrite(fn)] and [fn.grantInvoke(role)] *)
Definition grantReadWrite (bucket grantee : id) : M unit := grant (ReadWrite bucket grantee).
Definition grantInvoke (fn grantee : id) : M unit := grant (Invoke fn grantee).

(** Running a constructor on an empty scope. *)
Definition construct (c : M unit) : result Stack :=
  match c empty with
  | Ok (_, st) => Ok st
  | Throw m => Throw m
  end.

(** The children of each kind, in declaration order. *)
Definition buckets (st : Stack) : list (id * s3.BucketProps) :=
  omap (fun '(i, c) => match c with Bucket p => Some (i, p) | _ => None end) (children st).
Definition functions (st : Stack) : list (id * lambda.PythonFunctionProps) :=
  omap (fun '(i, c) => match c with PythonFunction p => Some (i, p) | _ => None end) (children st).
Definition roles (st : Stack) : list (id * iam.RoleProps) :=
  omap (fun '(i, c) => match c with Role p => Some (i, p) | _ => None end) (children st).
Definition schedules (st : Stack) : list (id * scheduler.CfnScheduleProps) :=
  omap (fun '(i, c) => match c with CfnSchedule p => Some (i, p) | _ => None end) (children st).
Definition outputs (st : Stack) : list (id * cdk.CfnOutputProps) :=
  omap (fun '(i, c) => match c with CfnOutput p => Some (i, p) | _ => None end) (children st).

End constructs.

Declare Scope construct_scope.
Delimit Scope construct_scope with construct.
Notation "x <- c ;; k" := (constructs.bind c (fun x => k))
  (at level 100, c at next level, right associativity) : construct_scope.
Notation "c ;; k" := (constructs.bind c (fun _ => k))
  (at level 100, right associativity) : construct_scope.

(** [this.node.tryGetContext(key)]: the value under the key, [undefined] when
    the context has none. *)
Definition tryGetContext (ctx : gmap string JS.any) (key : string) : JS.any :=
  default JS.undefined (ctx !! key).

Import JS constructs.
Local Open Scope js_scope.
Local Open Scope construct_scope.

(** [__dirname] of [lib/ai-gm-stack.ts], as a segment for [path.join]. *)
Definition __dirname : string := "__dirname".

(* ===================================================================== *)
(** * src/infra/lib/ai-gm-stack.ts                                        *)
(* ===================================================================== *)

Module Lib.

Definition AiGmSleeperStack (ctx : gmap string any) : M unit :=
  let username := tryGetContext ctx "username" || JStr "YOUR_SLEEPER_USERNAME" in
  let season := Number (tryGetContext ctx "season" ?? num 2025) in
  let leagueId := tryGetContext ctx "leagueId" || undefined in
  let rosterEvery := Number (tryGetContext ctx "rosterEvery" ?? num 10) in
  let playersPrefix := tryGetContext ctx "playersPrefix" || JStr "sleeper/players" in
  let rosterPrefix := tryGetContext ctx "rosterPrefix" || JStr "sleeper_sync" in

  bucket <- new "SleeperDataBucket" (Bucket {|
    s3.versioned := Some true;
    s3.blockPublicAccess := Some s3.BLOCK_ALL;
    s3.encryption := Some s3.S3_MANAGED;
    s3.lifecycleRules :=
      [ {| s3.id := Some "expire-old-versions";
           s3.noncurrentVersionExpiration := Some (cdk.days 90) |} ];
    s3.removalPolicy := Some cdk.RETAIN;
    s3.autoDeleteObjects := Some false;
  |}) ;;

  let lambdaCodePath := path.join [__dirname; ".."; "lambda"] in
  let baseEnv : gmap string cdk.text := list_to_map [
    ("S3_BUCKET", cdk.token (cdk.BucketName bucket));
    ("PLAYERS_S3_PREFIX", cdk.literal playersPrefix);
    ("ROSTER_S3_PREFIX", cdk.literal rosterPrefix);
    ("PLAYERS_CACHE_PATH", cdk.literal (JStr "/tmp/players_nfl.json"))
  ] in

  playersFn <- new "PlayersSyncFn" (PythonFunction {|
    lambda.entry := lambdaCodePath;
    lambda.index := Some "sleeper_sync.py";
    lambda.handler := Some "players_lambda_handler";
    lambda.runtime := lambda.PYTHON_3_12;
    lambda.architecture := Some lambda.ARM_64;
    lambda.memorySize := Some 512;
    lambda.timeout := Some (cdk.seconds 120);
    lambda.environment := baseEnv;
    lambda.logRetention := Some logs.ONE_WEEK;
  |}) ;;

  rosterFn <- new "RosterSyncFn" (PythonFunction {|
    lambda.entry := lambdaCodePath;
    lambda.index := Some "sleeper_sync.py";
    lambda.handler := Some "roster_lambda_handler";
    lambda.runtime := lambda.PYTHON_3_12;
    lambda.architecture := Some lambda.ARM_64;
    lambda.memorySize := Some 512;
    lambda.timeout := Some (cdk.seconds 60);
    lambda.environment := <["USE_S3_PLAYERS" := cdk.literal (JStr "1")]> baseEnv;
    lambda.logRetention := Some logs.ONE_WEEK;
  |}) ;;

  grantReadWrite bucket playersFn ;;
  grantReadWrite bucket rosterFn ;;

  playersTargetRole <- new "PlayersSchedulerRole" (Role {|
    iam.assumedBy := iam.ServicePrincipal "scheduler.amazonaws.com";
  |}) ;;
  grantInvoke playersFn playersTargetRole ;;

  new "PlayersDailySchedule" (CfnSchedule {|
    scheduler.flexibleTimeWindow := {| scheduler.mode := "OFF" |};
    scheduler.scheduleExpressionTimezone := Some "America/Los_Angeles";
    scheduler.scheduleExpression := "cron(5 6 * * ? *)";
    scheduler.target := {|
      scheduler.arn := cdk.FunctionArn playersFn;
      scheduler.roleArn := cdk.RoleArn playersTargetRole;
      scheduler.input := Some (JSON_stringify []) |};
    scheduler.description := Some "Daily Sleeper players map sync (timezone aware)";
  |}) ;;

  rosterTargetRole <- new "RosterSchedulerRole" (Role {|
    iam.assumedBy := iam.ServicePrincipal "scheduler.amazonaws.com";
  |}) ;;
  grantInvoke rosterFn rosterTargetRole ;;

  new "RosterEveryNMinutes" (CfnSchedule {|
    scheduler.flexibleTimeWindow := {| scheduler.mode := "OFF" |};
    scheduler.scheduleExpressionTimezone := None;
    scheduler.scheduleExpression := "rate(" +:+ NumberToString rosterEvery +:+ " minutes)";
    scheduler.target := {|
      scheduler.arn := cdk.FunctionArn rosterFn;
      scheduler.roleArn := cdk.RoleArn rosterTargetRole;
      scheduler.input := Some (JSON_stringify
        [("username", username); ("season", JNum season); ("league_id", leagueId)]) |};
    scheduler.description :=
      Some ("Roster sync every " +:+ NumberToString rosterEvery +:+ " minutes");
  |}) ;;

  new "BucketName" (CfnOutput {| cdk.value := cdk.BucketName bucket |}) ;;
  new "PlayersFnName" (CfnOutput {| cdk.value := cdk.FunctionName playersFn |}) ;;
  new "RosterFnName" (CfnOutput {| cdk.value := cdk.FunctionName rosterFn |}) ;;
  ret tt.

(** [bin/app.ts]: [new AiGmSleeperStack(app, 'AiGmSleeperStack', ...)] on
    the context of the app.  The [env] property (account and region) is not
    read by the constructor. *)
Definition app (ctx : gmap string any) : result Stack :=
  construct (AiGmSleeperStack ctx).

End Lib.

(* ===================================================================== *)
(** * The constructor listed in src/infra/README.md (lines 23-150)        *)
(* ===================================================================== *)

Module Listing.

(** [fullYear] is the value of [new Date().getFullYear()] when the
    constructor runs. *)
Definition AiGmSleeperStack (fullYear : Z) (ctx : gmap string any) : M unit :=
  let username := tryGetContext ctx "username" in
  let season := Number (tryGetContext ctx "season" ?? num fullYear) in
  let leagueId := tryGetContext ctx "leagueId" || undefined in
  let rosterEvery := Number (tryGetContext ctx "rosterEvery" ?? num 10) in
  let playersPrefix := tryGetContext ctx "playersPrefix" || JStr "sleeper/players" in
  let rosterPrefix := tryGetContext ctx "rosterPrefix" || JStr "sleeper/rosters" in

  bucket <- new "SleeperDataBucket" (Bucket {|
    s3.versioned := Some true;
    s3.blockPublicAccess := Some s3.BLOCK_ALL;
    s3.encryption := Some s3.S3_MANAGED;
    s3.lifecycleRules :=
      [ {| s3.id := Some "expire-old-versions";
           s3.noncurrentVersionExpiration := Some (cdk.days 90) |} ];
    s3.removalPolicy := Some cdk.RETAIN;
    s3.autoDeleteObjects := Some false;
  |}) ;;

  let lambdaCodePath := path.join [__dirname; ".."; "lambda"] in
  let baseEnv : gmap string cdk.text := list_to_map [
    ("S3_BUCKET", cdk.token (cdk.BucketName bucket));
    ("PLAYERS_S3_PREFIX", cdk.literal playersPrefix);
    ("ROSTER_S3_PREFIX", cdk.literal rosterPrefix);
    ("PLAYERS_CACHE_PATH", cdk.literal (JStr "/tmp/players_nfl.json"));
    ("ROSTER_TARGETS_KEY", cdk.literal (JStr "sleeper/config/roster_targets.json"))
  ] in

  playersFn <- new "PlayersSyncFn" (PythonFunction {|
    lambda.entry := lambdaCodePath;
    lambda.index := Some "sleeper_sync.py";
    lambda.handler := Some "players_lambda_handler";
    lambda.runtime := lambda.PYTHON_3_12;
    lambda.architecture := Some lambda.ARM_64;
    lambda.memorySize := Some 512;
    lambda.timeout := Some (cdk.seconds 120);
    lambda.environment := baseEnv;
    lambda.logRetention := Some logs.ONE_WEEK;
  |}) ;;

  rosterFn <- new "RosterSyncFn" (PythonFunction {|
    lambda.entry := lambdaCodePath;
    lambda.index := Some "sleeper_sync.py";
    lambda.handler := Some "roster_lambda_handler";
    lambda.runtime := lambda.PYTHON_3_12;
    lambda.architecture := Some lambda.ARM_64;
    lambda.memorySize := Some 512;
    lambda.timeout := Some (cdk.seconds 60);
    lambda.environment := <["USE_S3_PLAYERS" := cdk.literal (JStr "1")]> baseEnv;
    lambda.logRetention := Some logs.ONE_WEEK;
  |}) ;;

  grantReadWrite bucket playersFn ;;
  grantReadWrite bucket rosterFn ;;

  rosterOrchestratorFn <- new "RosterOrchestratorFn" (PythonFunction {|
    lambda.entry := lambdaCodePath;
    lambda.index := Some "sleeper_sync.py";
    lambda.handler := Some "roster_scheduler_handler";
    lambda.runtime := lambda.PYTHON_3_12;
    lambda.architecture := Some lambda.ARM_64;
    lambda.memorySize := Some 512;
    lambda.timeout := Some (cdk.seconds 240);
    lambda.environment := <["USE_S3_PLAYERS" := cdk.literal (JStr "1")]> baseEnv;
    lambda.logRetention := Some logs.ONE_WEEK;
  |}) ;;
  grantReadWrite bucket rosterOrchestratorFn ;;

  playersTargetRole <- new "PlayersSchedulerRole" (Role {|
    iam.assumedBy := iam.ServicePrincipal "scheduler.amazonaws.com";
  |}) ;;
  grantInvoke playersFn playersTargetRole ;;

  new "PlayersDailySchedule" (CfnSchedule {|
    scheduler.flexibleTimeWindow := {| scheduler.mode := "OFF" |};
    scheduler.scheduleExpressionTimezone := Some "America/Los_Angeles";
    scheduler.scheduleExpression := "cron(5 6 * * ? *)";
    scheduler.target := {|
      scheduler.arn := cdk.FunctionArn playersFn;
      scheduler.roleArn := cdk.RoleArn playersTargetRole;
      scheduler.input := Some (JSON_stringify []) |};
    scheduler.description := Some "Daily Sleeper players map sync (timezone aware)";
  |}) ;;

  rosterTargetRole <- new "RosterSchedulerRole" (Role {|
    iam.assumedBy := iam.ServicePrincipal "scheduler.amazonaws.com";
  |}) ;;
  grantInvoke rosterFn rosterTargetRole ;;

  (if truthy username then
     new "RosterEveryNMinutes" (CfnSchedule {|
       scheduler.flexibleTimeWindow := {| scheduler.mode := "OFF" |};
       scheduler.scheduleExpressionTimezone := None;
       scheduler.scheduleExpression := "rate(" +:+ NumberToString rosterEvery +:+ " minutes)";
       scheduler.target := {|
         scheduler.arn := cdk.FunctionArn rosterFn;
         scheduler.roleArn := cdk.RoleArn rosterTargetRole;
         scheduler.input := Some (JSON_stringify
           [("username", username); ("season", JNum season); ("league_id", leagueId)]) |};
       scheduler.description :=
         Some ("Roster sync every " +:+ NumberToString rosterEvery +:+ " minutes");
     |}) ;; ret tt
   else ret tt) ;;

  rosterBatchRole <- new "RosterBatchSchedulerRole" (Role {|
    iam.assumedBy := iam.ServicePrincipal "scheduler.amazonaws.com";
  |}) ;;
  grantInvoke rosterOrchestratorFn rosterBatchRole ;;
  new "RosterHourlySchedule" (CfnSchedule {|
    scheduler.flexibleTimeWindow := {| scheduler.mode := "OFF" |};
    scheduler.scheduleExpressionTimezone := None;
    scheduler.scheduleExpression := "cron(0 * * * ? *)";
    scheduler.target := {|
      scheduler.arn := cdk.FunctionArn rosterOrchestratorFn;
      scheduler.roleArn := cdk.RoleArn rosterBatchRole;
      scheduler.input := Some (JSON_stringify []) |};
    scheduler.description := Some "Hourly roster sync for configured targets";
  |}) ;;

  new "BucketName" (CfnOutput {| cdk.value := cdk.BucketName bucket |}) ;;
  new "PlayersFnName" (CfnOutput {| cdk.value := cdk.FunctionName playersFn |}) ;;
  new "RosterFnName" (CfnOutput {| cdk.value := cdk.FunctionName rosterFn |}) ;;
  new "RosterOrchestratorFnName"
    (CfnOutput {| cdk.value := cdk.FunctionName rosterOrchestratorFn |}) ;;
  ret tt.

Definition app (fullYear : Z) (ctx : gmap string any) : result Stack :=
  construct (AiGmSleeperStack fullYear ctx).

End Listing.

(* ===================================================================== *)
(** * Reading a synthesized stack                                         *)
(* ===================================================================== *)

Fixpoint lookup_id {A} (i : id) (l : list (id * A)) : option A :=
  match l with
  | [] => None
  | (j, a) :: l' => if String.eqb i j then Some a else lookup_id i l'
  end.

Definition schedule (i : id) (st : Stack) : option scheduler.CfnScheduleProps :=
  lookup_id i (schedules st).

Definition role (i : id) (st : Stack) : option iam.RoleProps :=
  lookup_id i (roles st).

Definition function (i : id) (st : Stack) : option lambda.PythonFunctionProps :=
  lookup_id i (functions st).

(** The schedule invokes the function [fn]. *)
Definition targets (fn : id) (p : scheduler.CfnScheduleProps) : bool :=
  match scheduler.arn (scheduler.target p) with
  | cdk.FunctionArn f => String.eqb f fn
  | _ => false
  end.

Definition schedules_targeting (fn : id) (st : Stack)
  : list (id * scheduler.CfnScheduleProps) :=
  List.filter (fun ip => targets fn (snd ip)) (schedules st).

Definition grantee (g : Grant) : id :=
  match g with
  | ReadWrite _ r => r
  | Invoke _ r => r
  end.

(** Everything granted to [r]. *)
Definition grants_to (r : id) (st : Stack) : list Grant :=
  List.filter (fun g => String.eqb (grantee g) r) (grants st).

(** The role of a schedule's target. *)
Definition target_role (p : scheduler.CfnScheduleProps) : cdk.Token :=
  scheduler.roleArn (scheduler.target p).

(** The rate expressions of EventBridge Scheduler: [rate(value unit)] with a
    positive whole value and the unit [minutes], [hours] or [days]. *)
Definition is_rate_expression (s : string) : bool :=
  match strip_prefix "rate(" s with
  | Some r =>
      let '(v, n, rest) := read_digits 10 r 0%N 0 in
      (0 <? n) && (0 <? v)%N
      && existsb (String.eqb rest) [" minutes)"; " hours)"; " days)"]
  | None => false
  end.

(** The expression of the roster schedule of a stack that was built. *)
Definition roster_expression (r : result Stack) : option string :=
  match r with
  | Ok st => scheduler.scheduleExpression <$> schedule "RosterEveryNMinutes" st
  | Throw _ => None
  end.

(** The input of the roster schedule of a stack that was built. *)
Definition roster_input (r : result Stack) : option string :=
  match r with
  | Ok st =>
      schedule "RosterEveryNMinutes" st
        ≫= fun p => scheduler.input (scheduler.target p)
  | Throw _ => None
  end.

(** A variable of the environment of a function of a stack that was built. *)
Definition environment_of (fn : id) (key : string) (r : result Stack)
  : option cdk.text :=
  match r with
  | Ok st => function fn st ≫= fun p => lambda.environment p !! key
  | Throw _ => None
  end.

(** The context keys the constructor reads. *)
Definition context_keys : list string :=
  ["username"; "season"; "leagueId"; "rosterEvery"; "playersPrefix"; "rosterPrefix"].

(* ===================================================================== *)
(** * Properties of a synthesized stack, shared by both revisions         *)
(* ===================================================================== *)

(** The stack has one bucket; it is versioned, encrypted with S3-managed
    keys, expires noncurrent versions after 90 days and is retained. *)
Definition retained_versioned_bucket (st : Stack) : Prop :=
  exists p,
    buckets st = [("SleeperDataBucket", p)]
    /\ s3.versioned p = Some true
    /\ s3.encryption p = Some s3.S3_MANAGED
    /\ s3.lifecycleRules p =
         [ {| s3.id := Some "expire-old-versions";
              s3.noncurrentVersionExpiration := Some (cdk.days 90) |} ]
    /\ s3.removalPolicy p = Some cdk.RETAIN.

(** One schedule invokes the players function, and one schedule has the
    daily cron expression: the same one, with a fixed timezone and the empty
    object as input. *)
Definition players_daily_schedule (st : Stack) : Prop :=
  exists p f,
    schedules_targeting "PlayersSyncFn" st = [("PlayersDailySchedule", p)]
    /\ List.filter
         (fun ip => String.eqb (scheduler.scheduleExpression (snd ip))
                               "cron(5 6 * * ? *)")
         (schedules st)
       = [("PlayersDailySchedule", p)]
    /\ scheduler.scheduleExpression p = "cron(5 6 * * ? *)"
    /\ scheduler.scheduleExpressionTimezone p = Some "America/Los_Angeles"
    /\ scheduler.arn (scheduler.target p) = cdk.FunctionArn "PlayersSyncFn"
    /\ scheduler.input (scheduler.target p) = Some "{}"
    /\ function "PlayersSyncFn" st = Some f
    /\ lambda.handler f = Some "players_lambda_handler".

(** Every function has a memory size and a timeout, and its environment
    names the bucket and the two prefixes. *)
Definition budget_and_shared_environment
    (playersPrefix rosterPrefix : any) (st : Stack) : Prop :=
  functions st <> []
  /\ map fst (buckets st) = ["SleeperDataBucket"]
  /\ Forall (fun '(_, p) =>
       is_Some (lambda.memorySize p)
       /\ is_Some (lambda.timeout p)
       /\ lambda.environment p !! "S3_BUCKET"
            = Some (cdk.token (cdk.BucketName "SleeperDataBucket"))
       /\ lambda.environment p !! "PLAYERS_S3_PREFIX" = Some (cdk.literal playersPrefix)
       /\ lambda.environment p !! "ROSTER_S3_PREFIX" = Some (cdk.literal rosterPrefix))
     (functions st).

(** The schedule invokes a function of the stack through a role of the stack
    that the scheduler service assumes and that is granted the invocation of
    that function and nothing else. *)
Definition invokes_through_own_role (st : Stack) (p : scheduler.CfnScheduleProps) : Prop :=
  exists fn r,
    scheduler.arn (scheduler.target p) = cdk.FunctionArn fn
    /\ is_Some (function fn st)
    /\ target_role p = cdk.RoleArn r
    /\ role r st = Some {| iam.assumedBy := iam.ServicePrincipal "scheduler.amazonaws.com" |}
    /\ grants_to r st = [Invoke fn r].

Definition scheduler_roles_and_grants (st : Stack) : Prop :=
  schedules st <> []
  /\ Forall (fun '(_, p) => invokes_through_own_role st p) (schedules st)
  /\ List.NoDup (map (fun ip => target_role (snd ip)) (schedules st))
  /\ exists b,
       map fst (buckets st) = [b]
       /\ functions st <> []
       /\ Forall (fun '(f, _) => In (ReadWrite b f) (grants st)) (functions st).

(* ===================================================================== *)
(** * bin/app.ts                                                          *)
(* ===================================================================== *)

Module bin.

(** [cdk.Environment] and the [cdk.StackProps] the app passes. *)
Record Environment := { account : any; region : any }.
Record StackProps := { env : Environment }.

(** [process.env.NAME]: the text of the variable, [undefined] when it is
    not set. *)
Definition getenv (process_env : gmap string string) (name : string) : any :=
  match process_env !! name with
  | Some text => JStr text
  | None => undefined
  end.

(** The props of [new AiGmSleeperStack(app, 'AiGmSleeperStack', {...})]. *)
Definition props (process_env : gmap string string) : StackProps :=
  {| env := {|
       account := getenv process_env "CDK_DEFAULT_ACCOUNT";
       region := getenv process_env "CDK_DEFAULT_REGION" || JStr "us-west-2";
     |} |}.

End bin.

(* ===================================================================== *)
(** * Reading back what the stack refers to and what it serializes        *)
(* ===================================================================== *)

Definition has_id {A} (i : id) (l : list (id * A)) : bool :=
  existsb (String.eqb i) (map fst l).

(** The token names an attribute of a construct of the stack. *)
Definition resolves (st : Stack) (t : cdk.Token) : bool :=
  match t with
  | cdk.BucketName b => has_id b (buckets st)
  | cdk.FunctionArn f => has_id f (functions st)
  | cdk.FunctionName f => has_id f (functions st)
  | cdk.RoleArn r => has_id r (roles st)
  end.

(** The target is a function of the stack, invoked through a role of the
    stack. *)
Definition target_resolves (st : Stack) (t : scheduler.Target) : bool :=
  match scheduler.arn t, scheduler.roleArn t with
  | cdk.FunctionArn f, cdk.RoleArn r =>
      has_id f (functions st) && has_id r (roles st)
  | _, _ => false
  end.

(** The grant is between constructs of the stack, of the kinds the call
    takes. *)
Definition grant_resolves (st : Stack) (g : Grant) : bool :=
  match g with
  | ReadWrite b f => has_id b (buckets st) && has_id f (functions st)
  | Invoke f r => has_id f (functions st) && has_id r (roles st)
  end.

Definition text_resolves (st : Stack) (v : cdk.text) : bool :=
  match v with
  | cdk.literal _ => true
  | cdk.token t => resolves st t
  end.

(** Every id is declared once, and every reference made in the stack is to
    a construct declared in it. *)
Definition no_dangling_reference (st : Stack) : Prop :=
  List.NoDup (map fst (children st))
  /\ Forall (fun g => grant_resolves st g = true) (grants st)
  /\ Forall (fun ip => target_resolves st (scheduler.target (snd ip)) = true)
            (schedules st)
  /\ Forall (fun ip => resolves st (cdk.value (snd ip)) = true) (outputs st)
  /\ Forall (fun ip =>
               map_Forall (fun _ v => text_resolves st v = true)
                          (lambda.environment (snd ip)))
            (functions st).

(** Reading a JSON string literal back, for the escapes of
    [QuoteJSONString]: one character of the literal, and the rest. *)
Definition read_char (s : string) : option (ascii * string) :=
  match s with
  | EmptyString => None
  | String c r =>
      let n := N_of_ascii c in
      if (n =? 34)%N then None
      else if (n <? 32)%N then None
      else if (n =? 92)%N then
        match r with
        | EmptyString => None
        | String e r' =>
            let m := N_of_ascii e in
            if (m =? 98)%N then Some (ascii_of_N 8, r')
            else if (m =? 116)%N then Some (ascii_of_N 9, r')
            else if (m =? 110)%N then Some (ascii_of_N 10, r')
            else if (m =? 102)%N then Some (ascii_of_N 12, r')
            else if (m =? 114)%N then Some (ascii_of_N 13, r')
            else if ((m =? 34)%N || (m =? 92)%N)%bool then Some (e, r')
            else if (m =? 117)%N then
              match r' with
              | String h3 (String h2 (String h1 (String h0 r''))) =>
                  match digit_value 16 h3, digit_value 16 h2,
                        digit_value 16 h1, digit_value 16 h0 with
                  | Some 0%N, Some 0%N, Some a, Some b =>
                      Some (ascii_of_N (a * 16 + b), r'')
                  | _, _, _, _ => None
                  end
              | _ => None
              end
            else None
        end
      else Some (c, r)
  end.

(** The characters of a literal up to its closing quote, and what follows
    the quote. *)
Fixpoint read_chars (fuel : nat) (s : string) : option (string * string) :=
  match fuel with
  | O => None
  | S fuel' =>
      match s with
      | EmptyString => None
      | String c r =>
          if (N_of_ascii c =? 34)%N then Some (EmptyString, r)
          else
            match read_char s with
            | Some (a, r') =>
                match read_chars fuel' r' with
                | Some (t, rest) => Some (String a t, rest)
                | None => None
                end
            | None => None
            end
      end
  end.

(** The string a quoted literal stands for, when the text is one literal
    and nothing more. *)
Definition read_quoted (s : string) : option string :=
  match s with
  | EmptyString => None
  | String q r =>
      if (N_of_ascii q =? 34)%N then
        match read_chars (String.length s) r with
        | Some (t, EmptyString) => Some t
        | _ => None
        end
      else None
  end.

(** The functions differ in handler, timeout and environment only. *)
Definition uniform_functions (st : Stack) : Prop :=
  Forall (fun ip =>
            let p := snd ip in
            lambda.entry p = path.join [__dirname; ".."; "lambda"]
            /\ lambda.index p = Some "sleeper_sync.py"
            /\ lambda.runtime p = lambda.PYTHON_3_12
            /\ lambda.architecture p = Some lambda.ARM_64
            /\ lambda.memorySize p = Some 512
            /\ lambda.logRetention p = Some logs.ONE_WEEK
            /\ exists t, lambda.timeout p = Some (cdk.seconds t) /\ 60 <= t <= 240)
         (functions st)
  /\ List.NoDup (map (fun ip => lambda.handler (snd ip)) (functions st))
  /\ Forall (fun ip => is_Some (lambda.handler (snd ip))) (functions st).

(** The environment of the players function is the base environment, with
    the given keys, and the environment of every other function is that one
    with [USE_S3_PLAYERS] added. *)
Definition spread_environment (keys : gset string) (st : Stack) : Prop :=
  exists players,
    function "PlayersSyncFn" st = Some players
    /\ dom (lambda.environment players) = keys
    /\ lambda.environment players !! "USE_S3_PLAYERS" = None
    /\ lambda.environment players !! "PLAYERS_CACHE_PATH"
         = Some (cdk.literal (JStr "/tmp/players_nfl.json"))
    /\ Forall (fun ip =>
                 fst ip = "PlayersSyncFn"
                 \/ lambda.environment (snd ip)
                    = <["USE_S3_PLAYERS" := cdk.literal (JStr "1")]>
                        (lambda.environment players))
              (functions st).

(** Every schedule fires at its exact time and carries an input and a
    description; the players schedule alone sets a timezone. *)
Definition exact_time_schedules (st : Stack) : Prop :=
  Forall (fun ip =>
            let p := snd ip in
            scheduler.mode (scheduler.flexibleTimeWindow p) = "OFF"
            /\ is_Some (scheduler.input (scheduler.target p))
            /\ is_Some (scheduler.description p)
            /\ (is_Some (scheduler.scheduleExpressionTimezone p)
                <-> fst ip = "PlayersDailySchedule"))
         (schedules st).

(** The description of the roster schedule, when there is one, names the
    minutes of its expression. *)
Definition roster_description_matches (st : Stack) : Prop :=
  match schedule "RosterEveryNMinutes" st with
  | Some p =>
      exists minutes,
        scheduler.scheduleExpression p = "rate(" +:+ minutes +:+ " minutes)"
        /\ scheduler.description p
           = Some ("Roster sync every " +:+ minutes +:+ " minutes")
  | None => True
  end.

(** What two stacks share when they differ in what the context decides
    only: bucket, roles, grants, outputs, the players schedule, and the id,
    handler and budget of every function. *)
Definition same_fixed_part (st st' : Stack) : Prop :=
  buckets st = buckets st'
  /\ roles st = roles st'
  /\ grants st = grants st'
  /\ outputs st = outputs st'
  /\ schedule "PlayersDailySchedule" st = schedule "PlayersDailySchedule" st'
  /\ map (fun ip => (fst ip, lambda.handler (snd ip), lambda.memorySize (snd ip),
                     lambda.timeout (snd ip))) (functions st)
     = map (fun ip => (fst ip, lambda.handler (snd ip), lambda.memorySize (snd ip),
                       lambda.timeout (snd ip))) (functions st').

(* ===================================================================== *)
(** * The text of the roster event, and what the context supplies to it   *)
(* ===================================================================== *)

(** The double quote, and a text between double quotes. *)
Definition dq : string := String (ascii_of_nat 34) EmptyString.
Definition quoted (s : string) : string := dq +:+ s +:+ dq.

(** The text of an event: the texts of its [username] and [season], and the
    part for [league_id], which is empty or [league_part]. *)
Definition event_text (username season league : string) : string :=
  "{" +:+ quoted "username" +:+ ":" +:+ username
  +:+ "," +:+ quoted "season" +:+ ":" +:+ season
  +:+ league +:+ "}".

Definition league_part (league_id : string) : string :=
  "," +:+ quoted "league_id" +:+ ":" +:+ league_id.

(** The text of a Number in JSON. *)
Definition number_text (n : number) : string :=
  if is_finite n then NumberToString n else "null".

(** A binding of an environment holds the prefix of the context when it is
    truthy, and the default when the context has none or a falsy one. *)
Definition prefix_read (ctx : gmap string any) (key default_prefix : string)
    (binding : option cdk.text) : Prop :=
  (ctx !! key = None -> binding = Some (cdk.literal (JStr default_prefix)))
  /\ (forall v, ctx !! key = Some v -> truthy v = true ->
                binding = Some (cdk.literal v))
  /\ (forall v, ctx !! key = Some v -> truthy v = false ->
                binding = Some (cdk.literal (JStr default_prefix))).

(** The expression holds the minutes of the context, or 10 when the context
    has none, or [null] or [undefined]. *)
Definition interval_read (ctx : gmap string any) (expression : option string) : Prop :=
  (ctx !! "rosterEvery" = None -> expression = Some "rate(10 minutes)")
  /\ (forall v, ctx !! "rosterEvery" = Some v -> v <> null -> v <> undefined ->
                expression
                = Some ("rate(" +:+ NumberToString (Number v) +:+ " minutes)"))
  /\ (forall v, ctx !! "rosterEvery" = Some v -> v = null \/ v = undefined ->
                expression = Some "rate(10 minutes)").

(** The texts of the event hold the username, the season and the league of
    the context, or their defaults when the context has none. *)
Definition username_read (ctx : gmap string any) (text : string) : Prop :=
  forall v, ctx !! "username" = Some v -> truthy v = true ->
            SerializeJSONProperty v = Some text.

Definition season_read (ctx : gmap string any) (default_text text : string) : Prop :=
  (ctx !! "season" = None -> text = default_text)
  /\ (forall v, ctx !! "season" = Some v -> v <> null -> v <> undefined ->
                text = number_text (Number v))
  /\ (forall v, ctx !! "season" = Some v -> v = null \/ v = undefined ->
                text = default_text).

Definition league_read (ctx : gmap string any) (part : string) : Prop :=
  (ctx !! "leagueId" = None -> part = "")
  /\ (forall v, ctx !! "leagueId" = Some v -> truthy v = true ->
                exists league_text,
                  SerializeJSONProperty v = Some league_text
                  /\ part = league_part league_text)
  /\ (forall v, ctx !! "leagueId" = Some v -> truthy v = false -> part = "").

(** The input is the text of an event with the given username and season,
    and with the league when it is truthy. *)
Definition event_of (input : option string)
    (username : any) (season : number) (leagueId : any) : Prop :=
  exists username_text part,
    SerializeJSONProperty username = Some username_text
    /\ input = Some (event_text username_text (number_text season) part)
    /\ (if truthy leagueId
        then exists league_text,
               SerializeJSONProperty leagueId = Some league_text
               /\ part = league_part league_text
        else part = "").

(** What the stack of [src/infra/lib/ai-gm-stack.ts] holds of the context. *)
Definition Lib_reads (ctx : gmap string any) (r : result Stack) : Prop :=
  prefix_read ctx "playersPrefix" "sleeper/players"
    (environment_of "PlayersSyncFn" "PLAYERS_S3_PREFIX" r)
  /\ prefix_read ctx "rosterPrefix" "sleeper_sync"
       (environment_of "PlayersSyncFn" "ROSTER_S3_PREFIX" r)
  /\ interval_read ctx (roster_expression r)
  /\ exists username_text season_text part,
       roster_input r = Some (event_text username_text season_text part)
       /\ (ctx !! "username" = None ->
           username_text = quoted "YOUR_SLEEPER_USERNAME")
       /\ (forall v, ctx !! "username" = Some v -> truthy v = false ->
                     username_text = quoted "YOUR_SLEEPER_USERNAME")
       /\ username_read ctx username_text
       /\ season_read ctx "2025" season_text
       /\ league_read ctx part.

(** What the stack of the listing in [src/infra/README.md] holds of the
    context: without a truthy username there is no roster schedule. *)
Definition Listing_reads (fullYear : Z) (ctx : gmap string any)
    (r : result Stack) : Prop :=
  prefix_read ctx "playersPrefix" "sleeper/players"
    (environment_of "PlayersSyncFn" "PLAYERS_S3_PREFIX" r)
  /\ prefix_read ctx "rosterPrefix" "sleeper/rosters"
       (environment_of "PlayersSyncFn" "ROSTER_S3_PREFIX" r)
  /\ (ctx !! "username" = None ->
      roster_input r = None /\ roster_expression r = None)
  /\ (forall v, ctx !! "username" = Some v -> truthy v = false ->
        roster_input r = None /\ roster_expression r = None)
  /\ (forall v, ctx !! "username" = Some v -> truthy v = true ->
        interval_read ctx (roster_expression r)
        /\ exists username_text season_text part,
             SerializeJSONProperty v = Some username_text
             /\ roster_input r
                = Some (event_text username_text season_text part)
             /\ season_read ctx (number_text (number_of_Z fullYear)) season_text
             /\ league_read ctx part).

(* ===================================================================== *)
(** * Theorems                                                            *)
(* ===================================================================== *)

(** Running a constructor: every id is fresh, so each [new] succeeds. *)
Ltac run_constructor :=
  lazy beta iota zeta delta
    [construct bind new grant grantReadWrite grantInvoke ret has_child empty
     children grants existsb map fst snd String.eqb Ascii.eqb Bool.eqb
     app orb andb].

(** Reading the children and grants of the stack that was built. *)
Ltac read_stack :=
  lazy beta iota zeta delta
    [buckets functions roles schedules outputs omap list_omap children grants
     lookup_id schedule role function targets schedules_targeting grantee
     grants_to target_role List.filter map fst snd String.eqb Ascii.eqb
     Bool.eqb app orb andb negb length
     scheduler.arn scheduler.roleArn scheduler.target scheduler.input
     scheduler.scheduleExpression scheduler.scheduleExpressionTimezone
     scheduler.flexibleTimeWindow scheduler.description scheduler.mode
     lambda.handler lambda.memorySize lambda.timeout lambda.environment
     iam.assumedBy].

Ltac lib_stack :=
  unfold Lib.app, Lib.AiGmSleeperStack; run_constructor;
  eexists; split; [reflexivity | read_stack].

Ltac listing_stack ctx :=
  unfold Listing.app, Listing.AiGmSleeperStack; cbv zeta;
  destruct (truthy (tryGetContext ctx "username")) eqn:Husername;
  run_constructor; (eexists; split; [reflexivity | read_stack]).

(** The elements of a list that is given, one goal each. *)
Ltac each_element :=
  repeat first [ apply List.Forall_nil | apply List.Forall_cons ].

Ltac distinct_elements :=
  repeat first
    [ apply List.NoDup_nil
    | apply List.NoDup_cons; [ simpl; intuition discriminate | ] ].

Ltac check_roles_and_grants :=
  unfold scheduler_roles_and_grants; read_stack;
  split; [ discriminate | ];
  split; [ each_element; unfold invokes_through_own_role;
           do 2 eexists; repeat split; eexists; reflexivity | ];
  split; [ distinct_elements | ];
  eexists; split; [ reflexivity | ]; split; [ discriminate | ];
  each_element; simpl; tauto.

(** The constructors never throw: the ids they declare are distinct. *)
Lemma Lib_app_Ok (ctx : gmap string any) : exists st, Lib.app ctx = Ok st.
Proof.
  unfold Lib.app, Lib.AiGmSleeperStack; run_constructor. eexists; reflexivity.
Qed.

Lemma Listing_app_Ok (fullYear : Z) (ctx : gmap string any) :
  exists st, Listing.app fullYear ctx = Ok st.
Proof.
  unfold Listing.app, Listing.AiGmSleeperStack; cbv zeta.
  destruct (truthy (tryGetContext ctx "username"));
    run_constructor; eexists; reflexivity.
Qed.

(** C4.  The stack declares a single bucket, [SleeperDataBucket], with
    versioning enabled, S3-managed encryption at rest, one lifecycle rule
    that expires noncurrent versions after 90 days, and the removal policy
    RETAIN.  Holds for both revisions of the constructor and every context. *)
Theorem data_bucket_configuration (fullYear : Z) (ctx : gmap string any) :
  (exists st, Lib.app ctx = Ok st /\ retained_versioned_bucket st)
  /\ (exists st, Listing.app fullYear ctx = Ok st /\ retained_versioned_bucket st).
Proof.
  split.
  - lib_stack. unfold retained_versioned_bucket; read_stack.
    eexists; repeat split.
  - listing_stack ctx; unfold retained_versioned_bucket; read_stack;
      eexists; repeat split.
Qed.

(** C5.  Exactly one schedule invokes the players function
    ([PlayersSyncFn], handler [players_lambda_handler]): it is
    [PlayersDailySchedule], the only schedule with the fixed daily cron
    expression of the source (minute 5 of hour 6, every day), in the
    timezone [America/Los_Angeles], and its input is the serialization of
    the empty object.  Both revisions, every context. *)
Theorem players_daily_schedule_fixed (fullYear : Z) (ctx : gmap string any) :
  (exists st, Lib.app ctx = Ok st /\ players_daily_schedule st)
  /\ (exists st, Listing.app fullYear ctx = Ok st /\ players_daily_schedule st).
Proof.
  split.
  - lib_stack. unfold players_daily_schedule; read_stack.
    do 2 eexists; repeat split.
  - listing_stack ctx; unfold players_daily_schedule; read_stack;
      do 2 eexists; repeat split.
Qed.

(** C7.  Every function of the stack has a memory size and a timeout, and
    the environment of every function binds [S3_BUCKET] to the name of the
    bucket, [PLAYERS_S3_PREFIX] to the players prefix and [ROSTER_S3_PREFIX]
    to the roster prefix, the same values for all of them.  Both revisions,
    every context. *)
Theorem function_budget_and_environment (fullYear : Z) (ctx : gmap string any) :
  (exists st, Lib.app ctx = Ok st
     /\ budget_and_shared_environment
          (tryGetContext ctx "playersPrefix" || JStr "sleeper/players")
          (tryGetContext ctx "rosterPrefix" || JStr "sleeper_sync") st)
  /\ (exists st, Listing.app fullYear ctx = Ok st
     /\ budget_and_shared_environment
          (tryGetContext ctx "playersPrefix" || JStr "sleeper/players")
          (tryGetContext ctx "rosterPrefix" || JStr "sleeper/rosters") st).
Proof.
  split.
  - lib_stack. unfold budget_and_shared_environment; read_stack.
    split; [discriminate | split; [reflexivity |]].
    repeat constructor; eexists; reflexivity.
  - listing_stack ctx; unfold budget_and_shared_environment; read_stack;
      (split; [discriminate | split; [reflexivity |]]);
      repeat constructor; eexists; reflexivity.
Qed.


(** C10.  Every schedule of the stack invokes a function of the stack
    through a role that is assumed by the service principal
    [scheduler.amazonaws.com] and to which exactly one thing is granted, the
    invocation of that schedule's own target; no two schedules share a role;
    and every function is granted read and write access to the single
    bucket.  Both revisions, every context. *)
Theorem scheduler_roles_and_bucket_grants (fullYear : Z) (ctx : gmap string any) :
  (exists st, Lib.app ctx = Ok st /\ scheduler_roles_and_grants st)
  /\ (exists st, Listing.app fullYear ctx = Ok st /\ scheduler_roles_and_grants st).
Proof.
  split.
  - lib_stack. check_roles_and_grants.
  - listing_stack ctx; check_roles_and_grants.
Qed.

(** Evaluating a constructor on a given context. *)
Ltac evaluate := vm_compute; reflexivity.

Lemma tryGetContext_absent (ctx : gmap string any) (key : string) :
  ctx !! key = None -> tryGetContext ctx key = undefined.
Proof. intros H. unfold tryGetContext. rewrite H. reflexivity. Qed.

Lemma tryGetContext_present (ctx : gmap string any) (key : string) (v : any) :
  ctx !! key = Some v -> tryGetContext ctx key = v.
Proof. intros H. unfold tryGetContext. rewrite H. reflexivity. Qed.

Lemma truthy_nonempty_string (s : string) : s <> "" -> truthy (JStr s) = true.
Proof. destruct s; [congruence | reflexivity]. Qed.

(** C1, counterexample.  In [src/infra/lib/ai-gm-stack.ts] the stack built
    from the empty context, where no username is supplied, has a schedule
    that invokes the roster function. *)
Lemma roster_schedule_without_username :
  exists st,
    Lib.app ∅ = Ok st
    /\ (∅ : gmap string any) !! "username" = None
    /\ map fst (schedules_targeting "RosterSyncFn" st) = ["RosterEveryNMinutes"]
    /\ schedules_targeting "RosterSyncFn" st <> [].
Proof.
  lib_stack. split; [reflexivity |]. split; [reflexivity | discriminate].
Qed.

(** C1, amended.  In the constructor listed in [src/infra/README.md] the
    schedule [RosterEveryNMinutes], the only one that invokes the roster
    function, is declared if and only if the [username] context value is
    truthy: it is absent from the stack when no username is supplied, and
    present when a non-empty string is supplied.  In
    [src/infra/lib/ai-gm-stack.ts] the schedule is declared for every
    context. *)
Theorem roster_schedule_guard (fullYear : Z) (ctx : gmap string any) :
  (exists st,
      Listing.app fullYear ctx = Ok st
      /\ map fst (schedules_targeting "RosterSyncFn" st)
           = (if truthy (tryGetContext ctx "username")
              then ["RosterEveryNMinutes"] else [])
      /\ (ctx !! "username" = None ->
            schedules_targeting "RosterSyncFn" st = []
            /\ schedule "RosterEveryNMinutes" st = None)
      /\ (forall s, ctx !! "username" = Some (JStr s) -> s <> "" ->
            exists p, schedules_targeting "RosterSyncFn" st
                        = [("RosterEveryNMinutes", p)]))
  /\ (exists st p,
        Lib.app ctx = Ok st
        /\ schedules_targeting "RosterSyncFn" st = [("RosterEveryNMinutes", p)]).
Proof.
  split.
  - listing_stack ctx.
    + split; [reflexivity |]. split.
      * intros H. rewrite (tryGetContext_absent _ _ H) in Husername. discriminate.
      * intros s _ _. eexists. reflexivity.
    + split; [reflexivity |]. split.
      * intros _. split; reflexivity.
      * intros s H Hs. rewrite (tryGetContext_present _ _ _ H) in Husername.
        rewrite (truthy_nonempty_string s Hs) in Husername. discriminate.
  - unfold Lib.app, Lib.AiGmSleeperStack; run_constructor.
    do 2 eexists. split; [reflexivity | read_stack; reflexivity].
Qed.

Lemma roster_schedule_guard_witness :
  exists st,
    Listing.app 2025 ∅ = Ok st
    /\ schedules_targeting "RosterSyncFn" st = []
    /\ schedule "RosterEveryNMinutes" st = None.
Proof.
  destruct (roster_schedule_guard 2025 ∅) as [[st (Hst & _ & Habsent & _)] _].
  exists st. split; [exact Hst | apply Habsent; reflexivity].
Defined.

(** C2, counterexample.  The stack of [src/infra/lib/ai-gm-stack.ts]
    declares two functions, and none with the handler
    [roster_scheduler_handler]. *)
Lemma lib_declares_two_functions :
  exists st,
    Lib.app ∅ = Ok st
    /\ length (functions st) = 2%nat
    /\ length (functions st) <> 3%nat
    /\ ~ In (Some "roster_scheduler_handler")
            (map (fun ip => lambda.handler (snd ip)) (functions st)).
Proof.
  lib_stack. split; [reflexivity |]. split; [discriminate |].
  intros [H | [H | []]]; discriminate H.
Qed.

(** C2, amended.  The constructor listed in [src/infra/README.md] declares
    exactly three functions, whose handlers are [players_lambda_handler],
    [roster_lambda_handler] and [roster_scheduler_handler] in this order;
    [src/infra/lib/ai-gm-stack.ts] declares exactly the first two. *)
Theorem declared_function_handlers (fullYear : Z) (ctx : gmap string any) :
  (exists st,
      Listing.app fullYear ctx = Ok st
      /\ map (fun ip => (fst ip, lambda.handler (snd ip))) (functions st)
           = [ ("PlayersSyncFn", Some "players_lambda_handler");
               ("RosterSyncFn", Some "roster_lambda_handler");
               ("RosterOrchestratorFn", Some "roster_scheduler_handler") ])
  /\ (exists st,
        Lib.app ctx = Ok st
        /\ map (fun ip => (fst ip, lambda.handler (snd ip))) (functions st)
             = [ ("PlayersSyncFn", Some "players_lambda_handler");
                 ("RosterSyncFn", Some "roster_lambda_handler") ]).
Proof.
  split.
  - listing_stack ctx; reflexivity.
  - lib_stack. reflexivity.
Qed.

(** C3, counterexample.  With a username supplied, the constructor listed in
    [src/infra/README.md] declares three schedules, not four. *)
Lemma listing_declares_three_schedules :
  exists st,
    Listing.app 2025 {[ "username" := JStr "sleeper_user" ]} = Ok st
    /\ map fst (schedules st)
         = ["PlayersDailySchedule"; "RosterEveryNMinutes"; "RosterHourlySchedule"]
    /\ length (schedules st) <> 4%nat.
Proof.
  unfold Listing.app, Listing.AiGmSleeperStack; cbv zeta.
  replace (truthy (tryGetContext {[ "username" := JStr "sleeper_user" ]} "username"))
    with true by reflexivity.
  run_constructor. eexists; split; [reflexivity | read_stack].
  split; [reflexivity | discriminate].
Qed.

(** C3, amended.  The constructor listed in [src/infra/README.md] declares
    three time-based schedules at most: the daily players refresh, the
    fixed-interval roster refresh (only when the username is truthy), and
    the hourly trigger of the orchestrator function, whose environment names
    the key of the target list.  [src/infra/lib/ai-gm-stack.ts] declares the
    first two, for every context. *)
Theorem declared_schedules (fullYear : Z) (ctx : gmap string any) :
  (exists st f,
      Listing.app fullYear ctx = Ok st
      /\ map (fun ip => (fst ip, scheduler.scheduleExpression (snd ip),
                         scheduler.arn (scheduler.target (snd ip))))
             (schedules st)
           = ([ ("PlayersDailySchedule", "cron(5 6 * * ? *)",
                 cdk.FunctionArn "PlayersSyncFn") ]
              ++ (if truthy (tryGetContext ctx "username")
                  then [ ("RosterEveryNMinutes",
                          "rate(" +:+ NumberToString
                             (Number (tryGetContext ctx "rosterEvery" ?? num 10))
                           +:+ " minutes)",
                          cdk.FunctionArn "RosterSyncFn") ]
                  else [])
              ++ [ ("RosterHourlySchedule", "cron(0 * * * ? *)",
                    cdk.FunctionArn "RosterOrchestratorFn") ])%list
      /\ (length (schedules st) <= 3)%nat
      /\ function "RosterOrchestratorFn" st = Some f
      /\ lambda.handler f = Some "roster_scheduler_handler"
      /\ lambda.environment f !! "ROSTER_TARGETS_KEY"
           = Some (cdk.literal (JStr "sleeper/config/roster_targets.json")))
  /\ (exists st,
        Lib.app ctx = Ok st
        /\ map (fun ip => (fst ip, scheduler.scheduleExpression (snd ip),
                           scheduler.arn (scheduler.target (snd ip))))
               (schedules st)
             = [ ("PlayersDailySchedule", "cron(5 6 * * ? *)",
                  cdk.FunctionArn "PlayersSyncFn");
                 ("RosterEveryNMinutes",
                  "rate(" +:+ NumberToString
                     (Number (tryGetContext ctx "rosterEvery" ?? num 10))
                   +:+ " minutes)",
                  cdk.FunctionArn "RosterSyncFn") ]).
Proof.
  split.
  - unfold Listing.app, Listing.AiGmSleeperStack; cbv zeta.
    destruct (truthy (tryGetContext ctx "username"));
      run_constructor; do 2 eexists;
      (split; [reflexivity | read_stack]);
      (split; [reflexivity |]); (split; [simpl; lia |]);
      repeat split.
  - lib_stack. reflexivity.
Qed.

(** ** The context values and their defaults *)

(** The stack is a function of the six values the constructor computes from
    the context. *)
Lemma Lib_app_ext (ctx ctx' : gmap string any) :
  tryGetContext ctx' "username" || JStr "YOUR_SLEEPER_USERNAME"
    = tryGetContext ctx "username" || JStr "YOUR_SLEEPER_USERNAME" ->
  tryGetContext ctx' "season" ?? num 2025 = tryGetContext ctx "season" ?? num 2025 ->
  tryGetContext ctx' "leagueId" || undefined = tryGetContext ctx "leagueId" || undefined ->
  tryGetContext ctx' "rosterEvery" ?? num 10 = tryGetContext ctx "rosterEvery" ?? num 10 ->
  tryGetContext ctx' "playersPrefix" || JStr "sleeper/players"
    = tryGetContext ctx "playersPrefix" || JStr "sleeper/players" ->
  tryGetContext ctx' "rosterPrefix" || JStr "sleeper_sync"
    = tryGetContext ctx "rosterPrefix" || JStr "sleeper_sync" ->
  Lib.app ctx' = Lib.app ctx.
Proof.
  intros H1 H2 H3 H4 H5 H6. unfold Lib.app, Lib.AiGmSleeperStack.
  rewrite H1, H2, H3, H4, H5, H6. reflexivity.
Qed.

Lemma Listing_app_ext (fullYear : Z) (ctx ctx' : gmap string any) :
  tryGetContext ctx' "username" = tryGetContext ctx "username" ->
  tryGetContext ctx' "season" ?? num fullYear
    = tryGetContext ctx "season" ?? num fullYear ->
  tryGetContext ctx' "leagueId" || undefined = tryGetContext ctx "leagueId" || undefined ->
  tryGetContext ctx' "rosterEvery" ?? num 10 = tryGetContext ctx "rosterEvery" ?? num 10 ->
  tryGetContext ctx' "playersPrefix" || JStr "sleeper/players"
    = tryGetContext ctx "playersPrefix" || JStr "sleeper/players" ->
  tryGetContext ctx' "rosterPrefix" || JStr "sleeper/rosters"
    = tryGetContext ctx "rosterPrefix" || JStr "sleeper/rosters" ->
  Listing.app fullYear ctx' = Listing.app fullYear ctx.
Proof.
  intros H1 H2 H3 H4 H5 H6. unfold Listing.app, Listing.AiGmSleeperStack.
  rewrite H1, H2, H3, H4, H5, H6. reflexivity.
Qed.

(** A key set to its default, where it was absent, against the context as
    it was: equal where the key is read, untouched elsewhere. *)
Ltac default_or_other Habsent :=
  unfold tryGetContext;
  first
    [ rewrite lookup_insert_eq, Habsent
    | rewrite lookup_insert_ne by discriminate ];
  reflexivity.

(** Each of the six keys is read: on a context with a username, setting the
    key to another value changes the stack, in both revisions. *)
Example context_keys_are_read :
  let base : gmap string any := {[ "username" := JStr "sleeper_user" ]} in
  Forall (fun k =>
            Lib.app (<[k := JStr "7"]> base) <> Lib.app base
            /\ Listing.app 2025 (<[k := JStr "7"]> base) <> Listing.app 2025 base)
         context_keys.
Proof.
  intros base. unfold context_keys. each_element; split; intros H;
    first
      [ apply (f_equal roster_input) in H; vm_compute in H; discriminate H
      | apply (f_equal roster_expression) in H; vm_compute in H; discriminate H
      | apply (f_equal (environment_of "PlayersSyncFn" "PLAYERS_S3_PREFIX")) in H;
        vm_compute in H; discriminate H
      | apply (f_equal (environment_of "PlayersSyncFn" "ROSTER_S3_PREFIX")) in H;
        vm_compute in H; discriminate H ].
Qed.

(** ** The input and the expression of the roster schedule *)

Lemma or_else_truthy (v d : any) : truthy d = true -> truthy (v || d) = true.
Proof.
  intros H. unfold or_else. destruct (truthy v) eqn:E; [exact E | exact H].
Qed.



(** No text of a Number that is not finite makes a rate expression. *)
Lemma rate_expression_finite (n : number) :
  is_rate_expression ("rate(" +:+ NumberToString n +:+ " minutes)") = true ->
  is_finite n = true.
Proof.
  destruct n as [s | s | | s m e]; try reflexivity.
  - destruct s; vm_compute; discriminate.
  - vm_compute; discriminate.
Qed.

(** C9, counterexample.  [rosterEvery] supplied as the string Infinity is
    coerced to a Number that is not finite, and the expression of the roster
    schedule is then the rate of Infinity minutes, not of NaN minutes. *)
Lemma roster_rate_infinity :
  exists st,
    Lib.app {[ "rosterEvery" := JStr "Infinity" ]} = Ok st
    /\ is_finite (Number (JStr "Infinity")) = false
    /\ roster_expression (Ok st) = Some "rate(Infinity minutes)"
    /\ roster_expression (Ok st) <> Some "rate(NaN minutes)".
Proof.
  lib_stack. split; [evaluate |]. split; [evaluate |].
  vm_compute. discriminate.
Qed.

(** C9, amended.  The expression of the roster schedule is the text
    [rate(n minutes)] where [n] is the text of
    [Number(rosterEvery ?? 10)]; the constructor returns a stack for every
    context; the expression is a rate expression only if that Number is
    finite; and when it is not finite the expression is the rate of NaN, of
    Infinity or of -Infinity minutes (NaN exactly when the Number is NaN).
    In the listing of [src/infra/README.md] the schedule is declared when
    the username is truthy. *)
Theorem roster_rate_expression (fullYear : Z) (ctx : gmap string any) :
  let rosterEvery := Number (tryGetContext ctx "rosterEvery" ?? num 10) in
  let expression := "rate(" +:+ NumberToString rosterEvery +:+ " minutes)" in
  (exists st p,
      Lib.app ctx = Ok st
      /\ schedule "RosterEveryNMinutes" st = Some p
      /\ scheduler.scheduleExpression p = expression)
  /\ (exists st,
        Listing.app fullYear ctx = Ok st
        /\ (truthy (tryGetContext ctx "username") = true ->
            exists p,
              schedule "RosterEveryNMinutes" st = Some p
              /\ scheduler.scheduleExpression p = expression))
  /\ (is_rate_expression expression = true -> is_finite rosterEvery = true)
  /\ (is_nan rosterEvery = true -> expression = "rate(NaN minutes)")
  /\ (is_finite rosterEvery = false ->
        In expression
           ["rate(NaN minutes)"; "rate(Infinity minutes)"; "rate(-Infinity minutes)"]).
Proof.
  intros rosterEvery expression.
  split; [| split; [| split; [| split]]].
  - unfold Lib.app, Lib.AiGmSleeperStack; run_constructor.
    do 2 eexists. split; [reflexivity |]. read_stack. split; reflexivity.
  - listing_stack ctx.
    + intros _. eexists. split; reflexivity.
    + intros H. discriminate H.
  - apply rate_expression_finite.
  - subst expression. generalize rosterEvery. clear.
    intros n H. destruct n; try discriminate H. reflexivity.
  - subst expression. generalize rosterEvery. clear.
    intros n H. destruct n as [s | s | | s m e]; try discriminate H.
    + destruct s; simpl; tauto.
    + simpl; tauto.
Qed.

Lemma roster_rate_expression_witness :
  is_finite (Number (tryGetContext ∅ "rosterEvery" ?? num 10)) = true.
Proof.
  destruct (roster_rate_expression 2025 ∅) as (_ & _ & Hfinite & _).
  apply Hfinite. vm_compute. reflexivity.
Defined.

(** The expression on some contexts: the default, a whole number of
    minutes, text that is not a number, and a finite number that is not a
    whole number of minutes. *)
Example roster_rate_default :
  roster_expression (Lib.app ∅) = Some "rate(10 minutes)"
  /\ is_rate_expression "rate(10 minutes)" = true.
Proof. split; evaluate. Qed.

Example roster_rate_fifteen :
  roster_expression (Lib.app {[ "rosterEvery" := JStr "15" ]})
  = Some "rate(15 minutes)".
Proof. evaluate. Qed.

Example roster_rate_not_a_number :
  roster_expression (Lib.app {[ "rosterEvery" := JStr "often" ]})
  = Some "rate(NaN minutes)".
Proof. evaluate. Qed.

Example roster_rate_fraction :
  roster_expression (Lib.app {[ "rosterEvery" := JStr "1.5" ]})
  = Some "rate(1.5 minutes)"
  /\ is_finite (Number (JStr "1.5")) = true
  /\ is_rate_expression "rate(1.5 minutes)" = false.
Proof. repeat split; evaluate. Qed.

(* ===================================================================== *)
(** * Further properties of the constructor                               *)
(* ===================================================================== *)

Lemma tryGetContext_insert_eq (ctx : gmap string any) (key : string) (v : any) :
  tryGetContext (<[key := v]> ctx) key = v.
Proof. unfold tryGetContext. rewrite lookup_insert_eq. reflexivity. Qed.

Lemma tryGetContext_insert_ne (ctx : gmap string any) (k key : string) (v : any) :
  k <> key -> tryGetContext (<[k := v]> ctx) key = tryGetContext ctx key.
Proof. intros H. unfold tryGetContext. rewrite lookup_insert_ne by exact H. reflexivity. Qed.

Lemma tryGetContext_delete_eq (ctx : gmap string any) (key : string) :
  tryGetContext (delete key ctx) key = undefined.
Proof. unfold tryGetContext. rewrite lookup_delete_eq. reflexivity. Qed.

Lemma tryGetContext_delete_ne (ctx : gmap string any) (k key : string) :
  k <> key -> tryGetContext (delete k ctx) key = tryGetContext ctx key.
Proof. intros H. unfold tryGetContext. rewrite lookup_delete_ne by exact H. reflexivity. Qed.

Lemma or_else_falsy (v d : any) : truthy v = false -> v || d = d.
Proof. intros H. unfold or_else. rewrite H. reflexivity. Qed.

Lemma append_assoc (a b c : string) : (a +:+ b) +:+ c = a +:+ (b +:+ c).
Proof.
  induction a as [| x a IH]; [reflexivity |].
  change (String x ((a +:+ b) +:+ c) = String x (a +:+ (b +:+ c))).
  f_equal. exact IH.
Qed.

Lemma join_cons_cons (sep x y : string) (rest : list string) :
  join sep (x :: y :: rest) = x +:+ sep +:+ join sep (y :: rest).
Proof. reflexivity. Qed.

Lemma or_else_truthy_value (v d : any) : truthy v = true -> v || d = v.
Proof. intros H. unfold or_else. rewrite H. reflexivity. Qed.

Lemma coalesce_value (v d : any) : v <> null -> v <> undefined -> v ?? d = v.
Proof. intros Hn Hu. destruct v; try reflexivity; congruence. Qed.

Lemma truthy_serialized (v : any) :
  truthy v = true -> exists text, SerializeJSONProperty v = Some text.
Proof. intros H. destruct v; try discriminate H; eexists; reflexivity. Qed.

(** X1.  The outputs of the stack are the name of its bucket followed by
    the name of each of its functions, one output per function and in the
    order of declaration.  Both revisions, every context. *)
Theorem outputs_name_bucket_and_functions (fullYear : Z) (ctx : gmap string any) :
  (exists st,
      Lib.app ctx = Ok st
      /\ map fst (buckets st) = ["SleeperDataBucket"]
      /\ map (fun ip => cdk.value (snd ip)) (outputs st)
         = cdk.BucketName "SleeperDataBucket"
           :: map (fun ip => cdk.FunctionName (fst ip)) (functions st)
      /\ length (outputs st) = S (length (functions st)))
  /\ (exists st,
        Listing.app fullYear ctx = Ok st
        /\ map fst (buckets st) = ["SleeperDataBucket"]
        /\ map (fun ip => cdk.value (snd ip)) (outputs st)
           = cdk.BucketName "SleeperDataBucket"
             :: map (fun ip => cdk.FunctionName (fst ip)) (functions st)
        /\ length (outputs st) = S (length (functions st))).
Proof.
  split.
  - lib_stack. repeat split.
  - listing_stack ctx; repeat split.
Qed.

(** X2.  The functions of the stack differ in handler, timeout and
    environment only: each runs [sleeper_sync.py] from the same code
    directory on Python 3.12 and ARM64 with 512 MB and one week of log
    retention; its timeout is a number of seconds from 60 to 240; and no two
    functions have the same handler.  Both revisions, every context. *)
Ltac check_uniform_functions :=
  unfold uniform_functions; read_stack;
  split; [ each_element; repeat split; eexists; (split; [reflexivity | lia]) | ];
  split; [ distinct_elements | each_element; eexists; reflexivity ].

Theorem functions_share_code_and_budget (fullYear : Z) (ctx : gmap string any) :
  (exists st, Lib.app ctx = Ok st /\ uniform_functions st)
  /\ (exists st, Listing.app fullYear ctx = Ok st /\ uniform_functions st).
Proof.
  split.
  - lib_stack. check_uniform_functions.
  - listing_stack ctx; check_uniform_functions.
Qed.

(** X3.  The environment of the players function has the keys of the base
    environment and no [USE_S3_PLAYERS]; the environment of every other
    function is the same environment with [USE_S3_PLAYERS] set to 1, so the
    spread keeps every base binding.  The base keys are [S3_BUCKET],
    [PLAYERS_S3_PREFIX], [ROSTER_S3_PREFIX] and [PLAYERS_CACHE_PATH], and in
    the listing of [src/infra/README.md] also [ROSTER_TARGETS_KEY]. *)
Theorem environment_spread_keeps_base (fullYear : Z) (ctx : gmap string any) :
  (exists st,
      Lib.app ctx = Ok st
      /\ spread_environment
           {[ "S3_BUCKET"; "PLAYERS_S3_PREFIX"; "ROSTER_S3_PREFIX";
              "PLAYERS_CACHE_PATH" ]} st)
  /\ (exists st,
        Listing.app fullYear ctx = Ok st
        /\ spread_environment
             {[ "S3_BUCKET"; "PLAYERS_S3_PREFIX"; "ROSTER_S3_PREFIX";
                "PLAYERS_CACHE_PATH"; "ROSTER_TARGETS_KEY" ]} st).
Proof.
  split.
  - lib_stack. unfold spread_environment; read_stack.
    eexists. split; [reflexivity |]. split.
    { rewrite dom_list_to_map_L. simpl. set_solver. }
    split; [reflexivity |]. split; [reflexivity |].
    each_element; simpl; tauto.
  - listing_stack ctx; unfold spread_environment; read_stack;
      eexists; (split; [reflexivity |]);
      (split; [rewrite dom_list_to_map_L; simpl; set_solver |]);
      (split; [reflexivity |]); (split; [reflexivity |]);
      each_element; simpl; tauto.
Qed.

(** ** Values that are read as absent *)

(** With no truthy username the listing declares no roster schedule, and
    the username is read nowhere else. *)
Lemma Listing_app_ext_no_username (fullYear : Z) (ctx ctx' : gmap string any) :
  truthy (tryGetContext ctx' "username") = false ->
  truthy (tryGetContext ctx "username") = false ->
  tryGetContext ctx' "playersPrefix" || JStr "sleeper/players"
    = tryGetContext ctx "playersPrefix" || JStr "sleeper/players" ->
  tryGetContext ctx' "rosterPrefix" || JStr "sleeper/rosters"
    = tryGetContext ctx "rosterPrefix" || JStr "sleeper/rosters" ->
  Listing.app fullYear ctx' = Listing.app fullYear ctx.
Proof.
  intros H1 H2 H3 H4. unfold Listing.app, Listing.AiGmSleeperStack. cbv zeta.
  rewrite H1, H2, H3, H4. reflexivity.
Qed.

(** The value of a key other than the one that was set or removed. *)
Ltac other_key :=
  first
    [ rewrite tryGetContext_insert_ne, tryGetContext_delete_ne by discriminate;
      reflexivity
    | rewrite tryGetContext_insert_ne by discriminate;
      rewrite tryGetContext_delete_ne by discriminate; reflexivity ].

(** X4.  A context value read with [||] that is falsy (an empty string,
    [false], zero, NaN or [null]) is read exactly as if the key were absent:
    the stack is the one built without the key.  This holds for [leagueId],
    [playersPrefix] and [rosterPrefix] in both revisions, and for [username]
    in both as well: [src/infra/lib/ai-gm-stack.ts] falls back to the
    placeholder, the listing of [src/infra/README.md] declares no roster
    schedule. *)
Theorem falsy_values_read_as_absent
    (fullYear : Z) (ctx : gmap string any) (k : string) (v : any) :
  truthy v = false ->
  In k ["username"; "leagueId"; "playersPrefix"; "rosterPrefix"] ->
  Lib.app (<[k := v]> ctx) = Lib.app (delete k ctx)
  /\ Listing.app fullYear (<[k := v]> ctx) = Listing.app fullYear (delete k ctx).
Proof.
  intros Hv Hk.
  assert (Hset : forall d, tryGetContext (<[k := v]> ctx) k || d
                           = tryGetContext (delete k ctx) k || d).
  { intros d. rewrite tryGetContext_insert_eq, tryGetContext_delete_eq.
    rewrite (or_else_falsy _ _ Hv). reflexivity. }
  simpl in Hk.
  destruct Hk as [<- | [<- | [<- | [<- | []]]]].
  - split.
    + apply Lib_app_ext; first [apply Hset | other_key].
    + apply Listing_app_ext_no_username.
      * rewrite tryGetContext_insert_eq. exact Hv.
      * rewrite tryGetContext_delete_eq. reflexivity.
      * other_key.
      * other_key.
  - split; [apply Lib_app_ext | apply Listing_app_ext];
      first [apply Hset | other_key].
  - split; [apply Lib_app_ext | apply Listing_app_ext];
      first [apply Hset | other_key].
  - split; [apply Lib_app_ext | apply Listing_app_ext];
      first [apply Hset | other_key].
Qed.

Lemma falsy_values_read_as_absent_witness :
  Lib.app (<["leagueId" := JStr ""]> ∅) = Lib.app (delete "leagueId" ∅)
  /\ Listing.app 2025 (<["leagueId" := JStr ""]> ∅)
     = Listing.app 2025 (delete "leagueId" ∅).
Proof.
  apply (falsy_values_read_as_absent 2025 ∅ "leagueId" (JStr ""));
    [reflexivity | simpl; tauto].
Defined.



(** ** The event of the roster schedule, for every context *)

Lemma Lib_roster_input (ctx : gmap string any) :
  roster_input (Lib.app ctx)
  = Some (JSON_stringify
            [("username", tryGetContext ctx "username" || JStr "YOUR_SLEEPER_USERNAME");
             ("season", JNum (Number (tryGetContext ctx "season" ?? num 2025)));
             ("league_id", tryGetContext ctx "leagueId" || undefined)]).
Proof.
  unfold Lib.app, Lib.AiGmSleeperStack. run_constructor.
  unfold roster_input. read_stack. reflexivity.
Qed.

Lemma Listing_roster_input (fullYear : Z) (ctx : gmap string any) :
  truthy (tryGetContext ctx "username") = true ->
  roster_input (Listing.app fullYear ctx)
  = Some (JSON_stringify
            [("username", tryGetContext ctx "username");
             ("season", JNum (Number (tryGetContext ctx "season" ?? num fullYear)));
             ("league_id", tryGetContext ctx "leagueId" || undefined)]).
Proof.
  intros H. unfold Listing.app, Listing.AiGmSleeperStack. cbv zeta.
  rewrite H. run_constructor. unfold roster_input. read_stack. reflexivity.
Qed.

Lemma Listing_roster_input_none (fullYear : Z) (ctx : gmap string any) :
  truthy (tryGetContext ctx "username") = false ->
  roster_input (Listing.app fullYear ctx) = None.
Proof.
  intros H. unfold Listing.app, Listing.AiGmSleeperStack. cbv zeta.
  rewrite H. run_constructor. unfold roster_input. read_stack. reflexivity.
Qed.

(** The keys of the event: [league_id] is there when the value is truthy. *)
Lemma roster_event_keys_league (username leagueId : any) (season : number) :
  truthy username = true ->
  serialized_keys
    [("username", username); ("season", JNum season);
     ("league_id", leagueId || undefined)]
  = (["username"; "season"] ++ if truthy leagueId then ["league_id"] else [])%list.
Proof.
  intros H. unfold or_else.
  destruct (truthy leagueId) eqn:E;
    destruct username; try discriminate H;
    destruct leagueId; try discriminate E; reflexivity.
Qed.

(** The text of a roster event. *)
Lemma roster_event_text (username leagueId : any) (season : number)
    (username_text : string) :
  SerializeJSONProperty username = Some username_text ->
  JSON_stringify [("username", username); ("season", JNum season);
                  ("league_id", leagueId)]
  = event_text username_text (number_text season)
      match SerializeJSONProperty leagueId with
      | Some league_text => league_part league_text
      | None => ""
      end.
Proof.
  intros Hu. unfold JSON_stringify, serialized_properties.
  cbn [omap list_omap fmap option_fmap option_map map].
  rewrite Hu.
  change (SerializeJSONProperty (JNum season)) with (Some (number_text season)).
  destruct (SerializeJSONProperty leagueId) as [league_text |];
    cbn [omap list_omap fmap option_fmap option_map map];
    rewrite !join_cons_cons; unfold join, event_text, league_part, quoted, dq,
      QuoteJSONString, byte;
    rewrite !append_assoc; reflexivity.
Qed.

(** The event of given values: the league is in the text when it is
    truthy. *)
Lemma event_of_stringify (username leagueId : any) (season : number) :
  truthy username = true ->
  event_of
    (Some (JSON_stringify [("username", username); ("season", JNum season);
                           ("league_id", leagueId || undefined)]))
    username season leagueId.
Proof.
  intros Hu. destruct (truthy_serialized _ Hu) as [username_text Htext].
  exists username_text. eexists. split; [exact Htext |].
  split; [rewrite (roster_event_text _ _ _ _ Htext); reflexivity |].
  unfold or_else. destruct (truthy leagueId) eqn:E.
  - destruct (truthy_serialized _ E) as [league_text Hleague].
    exists league_text. rewrite Hleague. split; reflexivity.
  - reflexivity.
Qed.

Lemma username_read_text (ctx : gmap string any) (d : any) (text : string) :
  SerializeJSONProperty (tryGetContext ctx "username" || d) = Some text ->
  username_read ctx text.
Proof.
  intros H v Hctx Hv. rewrite (tryGetContext_present _ _ _ Hctx) in H.
  rewrite (or_else_truthy_value _ _ Hv) in H. exact H.
Qed.

Lemma prefix_read_or_else (ctx : gmap string any) (key default_prefix : string) :
  prefix_read ctx key default_prefix
    (Some (cdk.literal (tryGetContext ctx key || JStr default_prefix))).
Proof.
  split; [| split].
  - intros H. rewrite (tryGetContext_absent _ _ H). reflexivity.
  - intros v H Hv. rewrite (tryGetContext_present _ _ _ H).
    rewrite (or_else_truthy_value _ _ Hv). reflexivity.
  - intros v H Hv. rewrite (tryGetContext_present _ _ _ H).
    rewrite (or_else_falsy _ _ Hv). reflexivity.
Qed.

Lemma interval_read_coalesce (ctx : gmap string any) :
  interval_read ctx
    (Some ("rate(" +:+ NumberToString
                        (Number (tryGetContext ctx "rosterEvery" ?? num 10))
           +:+ " minutes)")).
Proof.
  split; [| split].
  - intros H. rewrite (tryGetContext_absent _ _ H). vm_compute. reflexivity.
  - intros v H Hnull Hundefined. rewrite (tryGetContext_present _ _ _ H).
    rewrite (coalesce_value _ _ Hnull Hundefined). reflexivity.
  - intros v H [-> | ->]; rewrite (tryGetContext_present _ _ _ H);
      vm_compute; reflexivity.
Qed.

Lemma season_read_coalesce (ctx : gmap string any) (d : any) :
  season_read ctx (number_text (Number d))
    (number_text (Number (tryGetContext ctx "season" ?? d))).
Proof.
  split; [| split].
  - intros H. rewrite (tryGetContext_absent _ _ H). reflexivity.
  - intros v H Hnull Hundefined. rewrite (tryGetContext_present _ _ _ H).
    rewrite (coalesce_value _ _ Hnull Hundefined). reflexivity.
  - intros v H [-> | ->]; rewrite (tryGetContext_present _ _ _ H); reflexivity.
Qed.

Lemma league_read_or_else (ctx : gmap string any) :
  league_read ctx
    match SerializeJSONProperty (tryGetContext ctx "leagueId" || undefined) with
    | Some league_text => league_part league_text
    | None => ""
    end.
Proof.
  split; [| split].
  - intros H. rewrite (tryGetContext_absent _ _ H). reflexivity.
  - intros v H Hv. rewrite (tryGetContext_present _ _ _ H).
    rewrite (or_else_truthy_value _ _ Hv).
    destruct (truthy_serialized _ Hv) as [league_text Htext].
    exists league_text. rewrite Htext. split; reflexivity.
  - intros v H Hv. rewrite (tryGetContext_present _ _ _ H).
    rewrite (or_else_falsy _ _ Hv). reflexivity.
Qed.

(** The input of the roster schedule as a text. *)
Lemma Lib_input_text (ctx : gmap string any) :
  exists username_text season_text part,
    roster_input (Lib.app ctx) = Some (event_text username_text season_text part)
    /\ league_read ctx part.
Proof.
  assert (Hu : truthy (tryGetContext ctx "username"
                       || JStr "YOUR_SLEEPER_USERNAME") = true)
    by (apply or_else_truthy; reflexivity).
  destruct (truthy_serialized _ Hu) as [username_text Htext].
  exists username_text. do 2 eexists. split.
  - rewrite Lib_roster_input, (roster_event_text _ _ _ _ Htext). reflexivity.
  - apply league_read_or_else.
Qed.

Lemma Listing_input_text (fullYear : Z) (ctx : gmap string any) :
  truthy (tryGetContext ctx "username") = true ->
  exists username_text season_text part,
    roster_input (Listing.app fullYear ctx)
    = Some (event_text username_text season_text part)
    /\ league_read ctx part.
Proof.
  intros Hu. destruct (truthy_serialized _ Hu) as [username_text Htext].
  exists username_text. do 2 eexists. split.
  - rewrite (Listing_roster_input _ _ Hu), (roster_event_text _ _ _ _ Htext).
    reflexivity.
  - apply league_read_or_else.
Qed.



(** X6.  For every context the input of the roster schedule is the text of
    an event with the keys [username] and [season], in this order, followed
    by [league_id] with the text of the league exactly when the [leagueId]
    context value is truthy; an empty [leagueId] is left out like an absent
    one, and a truthy one of the context is the one in the text.  It is the
    serialization of an object with these keys.  In the listing of
    [src/infra/README.md] the schedule, and so the input, exists exactly
    when the username is truthy. *)
Theorem league_id_key_iff_truthy (fullYear : Z) (ctx : gmap string any) :
  (event_of (roster_input (Lib.app ctx))
     (tryGetContext ctx "username" || JStr "YOUR_SLEEPER_USERNAME")
     (Number (tryGetContext ctx "season" ?? num 2025))
     (tryGetContext ctx "leagueId")
   /\ (exists username_text season_text part,
         roster_input (Lib.app ctx)
         = Some (event_text username_text season_text part)
         /\ league_read ctx part)
   /\ exists event,
        roster_input (Lib.app ctx) = Some (JSON_stringify event)
        /\ serialized_keys event
           = (["username"; "season"]
              ++ if truthy (tryGetContext ctx "leagueId")
                 then ["league_id"] else [])%list)
  /\ (if truthy (tryGetContext ctx "username")
      then event_of (roster_input (Listing.app fullYear ctx))
             (tryGetContext ctx "username")
             (Number (tryGetContext ctx "season" ?? num fullYear))
             (tryGetContext ctx "leagueId")
           /\ (exists username_text season_text part,
                 roster_input (Listing.app fullYear ctx)
                 = Some (event_text username_text season_text part)
                 /\ league_read ctx part)
           /\ exists event,
                roster_input (Listing.app fullYear ctx) = Some (JSON_stringify event)
                /\ serialized_keys event
                   = (["username"; "season"]
                      ++ if truthy (tryGetContext ctx "leagueId")
                         then ["league_id"] else [])%list
      else roster_input (Listing.app fullYear ctx) = None).
Proof.
  split.
  - assert (Hu : truthy (tryGetContext ctx "username"
                         || JStr "YOUR_SLEEPER_USERNAME") = true)
      by (apply or_else_truthy; reflexivity).
    split; [| split].
    + rewrite Lib_roster_input. apply event_of_stringify, Hu.
    + apply Lib_input_text.
    + eexists. split; [apply Lib_roster_input |].
      apply roster_event_keys_league, Hu.
  - destruct (truthy (tryGetContext ctx "username")) eqn:E.
    + split; [| split].
      * rewrite (Listing_roster_input _ _ E). apply event_of_stringify, E.
      * apply (Listing_input_text _ _ E).
      * eexists. split; [apply (Listing_roster_input _ _ E) |].
        apply roster_event_keys_league, E.
    + apply (Listing_roster_input_none _ _ E).
Qed.

Lemma league_id_key_iff_truthy_witness :
  roster_input (Lib.app {[ "leagueId" := JStr "123456" ]})
  = Some ("{" +:+ dq +:+ "username" +:+ dq +:+ ":"
          +:+ dq +:+ "YOUR_SLEEPER_USERNAME" +:+ dq
          +:+ "," +:+ dq +:+ "season" +:+ dq +:+ ":2025"
          +:+ "," +:+ dq +:+ "league_id" +:+ dq +:+ ":"
          +:+ dq +:+ "123456" +:+ dq +:+ "}").
Proof.
  destruct (league_id_key_iff_truthy 2025 {[ "leagueId" := JStr "123456" ]})
    as [(Hevent & _) _].
  destruct Hevent as (username_text & part & Htext & Hinput & Hpart).
  vm_compute in Htext. injection Htext as <-.
  vm_compute in Hpart. destruct Hpart as (league_text & Hleague & Hpart).
  injection Hleague as <-. rewrite Hinput, Hpart. vm_compute. reflexivity.
Defined.

(** A Number that is not finite is serialized as [null]. *)
Lemma stringify_not_finite (username leagueId : any) (season : number) :
  is_finite season = false ->
  JSON_stringify [("username", username); ("season", JNum season);
                  ("league_id", leagueId)]
  = JSON_stringify [("username", username); ("season", null);
                    ("league_id", leagueId)].
Proof.
  intros H. unfold JSON_stringify, serialized_properties. simpl.
  rewrite H. reflexivity.
Qed.

(** X7.  When the [season] context value does not parse as a finite number
    (text that is not a number, or Infinity), the input of the roster
    schedule carries [season] as [null]: no NaN or Infinity reaches the
    event.  In the listing of [src/infra/README.md] when the username is
    truthy. *)
Theorem unparsable_season_is_null (fullYear : Z) (ctx : gmap string any) :
  (is_finite (Number (tryGetContext ctx "season" ?? num 2025)) = false ->
   roster_input (Lib.app ctx)
   = Some (JSON_stringify
             [("username", tryGetContext ctx "username" || JStr "YOUR_SLEEPER_USERNAME");
              ("season", null);
              ("league_id", tryGetContext ctx "leagueId" || undefined)]))
  /\ (is_finite (Number (tryGetContext ctx "season" ?? num fullYear)) = false ->
      truthy (tryGetContext ctx "username") = true ->
      roster_input (Listing.app fullYear ctx)
      = Some (JSON_stringify
                [("username", tryGetContext ctx "username");
                 ("season", null);
                 ("league_id", tryGetContext ctx "leagueId" || undefined)])).
Proof.
  split.
  - intros H. rewrite Lib_roster_input. f_equal.
    apply stringify_not_finite, H.
  - intros H Hu. rewrite (Listing_roster_input _ _ Hu). f_equal.
    apply stringify_not_finite, H.
Qed.

Lemma unparsable_season_is_null_witness :
  roster_input (Lib.app {[ "season" := JStr "next" ]})
  = Some (JSON_stringify
            [("username", JStr "YOUR_SLEEPER_USERNAME"); ("season", null)]).
Proof.
  destruct (unparsable_season_is_null 2025 {[ "season" := JStr "next" ]})
    as [Hlib _].
  rewrite Hlib by (vm_compute; reflexivity). vm_compute. reflexivity.
Defined.

(** ** The expression of the roster schedule, for every context *)

Lemma Lib_roster_expression (ctx : gmap string any) :
  roster_expression (Lib.app ctx)
  = Some ("rate(" +:+ NumberToString
                        (Number (tryGetContext ctx "rosterEvery" ?? num 10))
          +:+ " minutes)").
Proof.
  unfold Lib.app, Lib.AiGmSleeperStack. run_constructor.
  unfold roster_expression. read_stack. reflexivity.
Qed.

Lemma Listing_roster_expression (fullYear : Z) (ctx : gmap string any) :
  truthy (tryGetContext ctx "username") = true ->
  roster_expression (Listing.app fullYear ctx)
  = Some ("rate(" +:+ NumberToString
                        (Number (tryGetContext ctx "rosterEvery" ?? num 10))
          +:+ " minutes)").
Proof.
  intros H. unfold Listing.app, Listing.AiGmSleeperStack. cbv zeta.
  rewrite H. run_constructor. unfold roster_expression. read_stack. reflexivity.
Qed.

(** Every whole number from 1 to 3000, as decimal text and as a Number, is
    finite, has its decimal text as the text of its Number, and as a number
    of minutes makes a rate expression. *)
Lemma whole_number_text (n : Z) :
  1 <= n <= 3000 ->
  is_finite (StringToNumber (decimal_string n)) = true
  /\ is_finite (number_of_Z n) = true
  /\ NumberToString (StringToNumber (decimal_string n)) = decimal_string n
  /\ NumberToString (number_of_Z n) = decimal_string n
  /\ is_rate_expression ("rate(" +:+ decimal_string n +:+ " minutes)") = true.
Proof.
  intros Hn.
  assert (Hall :
    forallb (fun i =>
               let n := Z.of_nat i in
               is_finite (StringToNumber (decimal_string n))
               && is_finite (number_of_Z n)
               && String.eqb (NumberToString (StringToNumber (decimal_string n)))
                             (decimal_string n)
               && String.eqb (NumberToString (number_of_Z n)) (decimal_string n)
               && is_rate_expression ("rate(" +:+ decimal_string n +:+ " minutes)"))
            (seq 1 3000) = true) by (vm_compute; reflexivity).
  rewrite forallb_forall in Hall.
  specialize (Hall (Z.to_nat n)).
  rewrite Z2Nat.id in Hall by lia.
  specialize (Hall ltac:(apply in_seq; lia)).
  repeat (apply andb_prop in Hall; destruct Hall as [Hall ?]).
  repeat split; try assumption; apply String.eqb_eq; assumption.
Qed.

(** X8.  A [rosterEvery] that is a whole number of minutes from 1 to 1440,
    supplied as its decimal text (as the command line does) or as a number,
    gives the expression [rate(n minutes)] with the same decimal text, which
    is a rate expression.  In the listing of [src/infra/README.md] when the
    username is truthy. *)
Theorem whole_minutes_rate (fullYear : Z) (ctx : gmap string any) (n : Z) :
  1 <= n <= 1440 ->
  ctx !! "rosterEvery" = Some (JStr (decimal_string n))
  \/ ctx !! "rosterEvery" = Some (JNum (number_of_Z n)) ->
  roster_expression (Lib.app ctx)
    = Some ("rate(" +:+ decimal_string n +:+ " minutes)")
  /\ (truthy (tryGetContext ctx "username") = true ->
      roster_expression (Listing.app fullYear ctx)
        = Some ("rate(" +:+ decimal_string n +:+ " minutes)"))
  /\ is_rate_expression ("rate(" +:+ decimal_string n +:+ " minutes)") = true.
Proof.
  intros Hn Hctx.
  destruct (whole_number_text n ltac:(lia)) as (_ & _ & Htext & Hnumber & Hrate).
  assert (Hvalue : NumberToString
                     (Number (tryGetContext ctx "rosterEvery" ?? num 10))
                   = decimal_string n).
  { destruct Hctx as [H | H]; rewrite (tryGetContext_present _ _ _ H);
      [exact Htext | exact Hnumber]. }
  split; [| split].
  - rewrite Lib_roster_expression, Hvalue. reflexivity.
  - intros Hu. rewrite (Listing_roster_expression _ _ Hu), Hvalue. reflexivity.
  - exact Hrate.
Qed.

Lemma whole_minutes_rate_witness :
  roster_expression (Lib.app {[ "rosterEvery" := JStr "45" ]})
  = Some "rate(45 minutes)".
Proof.
  destruct (whole_minutes_rate 2025 {[ "rosterEvery" := JStr "45" ]} 45)
    as (Hlib & _); [lia | left; reflexivity |].
  exact Hlib.
Defined.

(** X9.  A [season] that is a whole number from 1 to 3000, supplied as its
    decimal text (as the command line does) or as a number, reaches the
    event of the roster schedule as a number: the input is the text of an
    event whose [season] is the bare decimal text, without quotes.  So is
    the default season when the key is absent: 2025 in
    [src/infra/lib/ai-gm-stack.ts], the current year in the listing of
    [src/infra/README.md] (there, when the username is truthy). *)
Theorem season_reaches_event_as_number
    (fullYear : Z) (ctx : gmap string any) (n : Z) :
  1 <= n <= 3000 ->
  (ctx !! "season" = Some (JStr (decimal_string n))
   \/ ctx !! "season" = Some (JNum (number_of_Z n))
   \/ (ctx !! "season" = None /\ n = 2025) ->
   (exists username_text part,
      SerializeJSONProperty
        (tryGetContext ctx "username" || JStr "YOUR_SLEEPER_USERNAME")
      = Some username_text
      /\ league_read ctx part
      /\ roster_input (Lib.app ctx)
         = Some (event_text username_text (decimal_string n) part))
   /\ exists event,
        roster_input (Lib.app ctx) = Some (JSON_stringify event)
        /\ In ("season", decimal_string n) (serialized_properties event))
  /\ (ctx !! "season" = Some (JStr (decimal_string n))
      \/ ctx !! "season" = Some (JNum (number_of_Z n))
      \/ (ctx !! "season" = None /\ n = fullYear) ->
      truthy (tryGetContext ctx "username") = true ->
      (exists username_text part,
         SerializeJSONProperty (tryGetContext ctx "username") = Some username_text
         /\ league_read ctx part
         /\ roster_input (Listing.app fullYear ctx)
            = Some (event_text username_text (decimal_string n) part))
      /\ exists event,
           roster_input (Listing.app fullYear ctx) = Some (JSON_stringify event)
           /\ In ("season", decimal_string n) (serialized_properties event)).
Proof.
  intros Hn.
  destruct (whole_number_text n Hn) as (Ftext & Fnumber & Htext & Hnumber & _).
  assert (Hserialized : forall season : number,
            is_finite season = true ->
            NumberToString season = decimal_string n ->
            forall username leagueId,
              In ("season", decimal_string n)
                 (serialized_properties
                    [("username", username); ("season", JNum season);
                     ("league_id", leagueId)])).
  { intros season Hf Ht username leagueId.
    apply list_elem_of_In, list_elem_of_omap.
    exists ("season", JNum season). split.
    - apply list_elem_of_In. simpl. tauto.
    - simpl. rewrite Hf, Ht. reflexivity. }
  assert (Hevent : forall (season : number) (username : any),
            is_finite season = true ->
            NumberToString season = decimal_string n ->
            truthy username = true ->
            exists username_text part,
              SerializeJSONProperty username = Some username_text
              /\ league_read ctx part
              /\ Some (JSON_stringify
                         [("username", username); ("season", JNum season);
                          ("league_id", tryGetContext ctx "leagueId" || undefined)])
                 = Some (event_text username_text (decimal_string n) part)).
  { intros season username Hf Ht Hu.
    destruct (truthy_serialized _ Hu) as [username_text Hut].
    exists username_text. eexists. split; [exact Hut |].
    split; [apply league_read_or_else |].
    rewrite (roster_event_text _ _ _ _ Hut). unfold number_text.
    rewrite Hf, Ht. reflexivity. }
  assert (Hseason : forall d,
            ctx !! "season" = Some (JStr (decimal_string n))
            \/ ctx !! "season" = Some (JNum (number_of_Z n))
            \/ (ctx !! "season" = None /\ n = d) ->
            is_finite (Number (tryGetContext ctx "season" ?? num d)) = true
            /\ NumberToString (Number (tryGetContext ctx "season" ?? num d))
               = decimal_string n).
  { intros d [H | [H | [H <-]]].
    - rewrite (tryGetContext_present _ _ _ H). split; assumption.
    - rewrite (tryGetContext_present _ _ _ H). split; assumption.
    - rewrite (tryGetContext_absent _ _ H). split; assumption. }
  split.
  - intros Hctx. destruct (Hseason 2025 Hctx) as [Hf Ht].
    rewrite Lib_roster_input. split.
    + apply Hevent; [exact Hf | exact Ht |].
      apply or_else_truthy. reflexivity.
    + eexists. split; [reflexivity |]. apply Hserialized; assumption.
  - intros Hctx Hu. destruct (Hseason fullYear Hctx) as [Hf Ht].
    rewrite (Listing_roster_input _ _ Hu). split.
    + apply Hevent; assumption.
    + eexists. split; [reflexivity |]. apply Hserialized; assumption.
Qed.

Lemma season_reaches_event_as_number_witness :
  roster_input (Lib.app {[ "season" := JStr "2024" ]})
  = Some ("{" +:+ dq +:+ "username" +:+ dq +:+ ":"
          +:+ dq +:+ "YOUR_SLEEPER_USERNAME" +:+ dq
          +:+ "," +:+ dq +:+ "season" +:+ dq +:+ ":2024}").
Proof.
  destruct (season_reaches_event_as_number 2025 {[ "season" := JStr "2024" ]} 2024)
    as [Hlib _]; [lia |].
  destruct Hlib as [(username_text & part & Htext & [Hpart _] & Hinput) _];
    [left; reflexivity |].
  assert (Hempty : part = "") by (apply Hpart; reflexivity).
  rewrite Hinput, Hempty. vm_compute in Htext. injection Htext as <-.
  vm_compute. reflexivity.
Defined.

(** ** What the stack holds of the context *)

Lemma Lib_environment (ctx : gmap string any) :
  environment_of "PlayersSyncFn" "PLAYERS_S3_PREFIX" (Lib.app ctx)
  = Some (cdk.literal (tryGetContext ctx "playersPrefix" || JStr "sleeper/players"))
  /\ environment_of "PlayersSyncFn" "ROSTER_S3_PREFIX" (Lib.app ctx)
     = Some (cdk.literal (tryGetContext ctx "rosterPrefix" || JStr "sleeper_sync")).
Proof.
  unfold Lib.app, Lib.AiGmSleeperStack. run_constructor.
  unfold environment_of. read_stack. split; reflexivity.
Qed.

Lemma Listing_environment (fullYear : Z) (ctx : gmap string any) :
  environment_of "PlayersSyncFn" "PLAYERS_S3_PREFIX" (Listing.app fullYear ctx)
  = Some (cdk.literal (tryGetContext ctx "playersPrefix" || JStr "sleeper/players"))
  /\ environment_of "PlayersSyncFn" "ROSTER_S3_PREFIX" (Listing.app fullYear ctx)
     = Some (cdk.literal (tryGetContext ctx "rosterPrefix" || JStr "sleeper/rosters")).
Proof.
  unfold Listing.app, Listing.AiGmSleeperStack. cbv zeta.
  destruct (truthy (tryGetContext ctx "username"));
    run_constructor; unfold environment_of; read_stack; split; reflexivity.
Qed.

Lemma Listing_roster_expression_none (fullYear : Z) (ctx : gmap string any) :
  truthy (tryGetContext ctx "username") = false ->
  roster_expression (Listing.app fullYear ctx) = None.
Proof.
  intros H. unfold Listing.app, Listing.AiGmSleeperStack. cbv zeta.
  rewrite H. run_constructor. unfold roster_expression. read_stack. reflexivity.
Qed.

(** C6.  The constructor reads the context values [username], [season],
    [leagueId], [rosterEvery], [playersPrefix] and [rosterPrefix], and each
    reaches the stack, with its default when the context has none:
    - [playersPrefix] and [rosterPrefix], when truthy, are the values of
      [PLAYERS_S3_PREFIX] and [ROSTER_S3_PREFIX] in the environment of the
      functions; absent or falsy, the values are sleeper/players and
      sleeper_sync (sleeper/rosters in the listing of [src/infra/README.md]);
    - [rosterEvery], as a Number, is the number of minutes of the roster
      expression; absent, [null] or [undefined], the expression is that of
      10 minutes;
    - [username], [season] and [leagueId] are in the text of the roster
      event, the input of the roster schedule.  A truthy username is
      serialized in it; absent or falsy, it is the placeholder in
      [src/infra/lib/ai-gm-stack.ts], and in the listing there is then no
      roster schedule and no event.  The season is there as a Number,
      2025 when absent (the current year in the listing).  A truthy
      [leagueId] is serialized under [league_id]; absent or falsy, the
      event has no such key.
    The stack depends on the context through these six keys only, and
    supplying a default where the key is absent changes nothing. *)
Theorem context_values_and_defaults (fullYear : Z) (ctx : gmap string any) :
  Lib_reads ctx (Lib.app ctx)
  /\ Listing_reads fullYear ctx (Listing.app fullYear ctx)
  /\ (forall ctx',
        (forall k, In k context_keys -> ctx' !! k = ctx !! k) ->
        Lib.app ctx' = Lib.app ctx
        /\ Listing.app fullYear ctx' = Listing.app fullYear ctx)
  /\ (forall k d,
        In (k, d) [ ("username", JStr "YOUR_SLEEPER_USERNAME");
                    ("season", num 2025);
                    ("rosterEvery", num 10);
                    ("playersPrefix", JStr "sleeper/players");
                    ("rosterPrefix", JStr "sleeper_sync") ] ->
        ctx !! k = None ->
        Lib.app (<[k := d]> ctx) = Lib.app ctx)
  /\ (forall k d,
        In (k, d) [ ("season", num fullYear);
                    ("rosterEvery", num 10);
                    ("playersPrefix", JStr "sleeper/players");
                    ("rosterPrefix", JStr "sleeper/rosters") ] ->
        ctx !! k = None ->
        Listing.app fullYear (<[k := d]> ctx) = Listing.app fullYear ctx)
  /\ (ctx !! "leagueId" = None -> tryGetContext ctx "leagueId" || undefined = undefined).
Proof.
  split; [| split; [| split; [| split; [| split]]]].
  - destruct (Lib_environment ctx) as [Hplayers Hroster].
    unfold Lib_reads. rewrite Hplayers, Hroster, Lib_roster_expression,
      Lib_roster_input.
    split; [apply prefix_read_or_else |].
    split; [apply prefix_read_or_else |].
    split; [apply interval_read_coalesce |].
    assert (Hu : truthy (tryGetContext ctx "username"
                         || JStr "YOUR_SLEEPER_USERNAME") = true)
      by (apply or_else_truthy; reflexivity).
    destruct (truthy_serialized _ Hu) as [username_text Htext].
    exists username_text. do 2 eexists.
    split; [rewrite (roster_event_text _ _ _ _ Htext); reflexivity |].
    split.
    { intros H. rewrite (tryGetContext_absent _ _ H) in Htext.
      vm_compute in Htext. injection Htext as <-. reflexivity. }
    split.
    { intros v H Hv.
      rewrite (tryGetContext_present _ _ _ H), (or_else_falsy _ _ Hv) in Htext.
      vm_compute in Htext. injection Htext as <-. reflexivity. }
    split; [exact (username_read_text _ _ _ Htext) |].
    split; [apply (season_read_coalesce ctx (num 2025)) |].
    apply league_read_or_else.
  - destruct (Listing_environment fullYear ctx) as [Hplayers Hroster].
    unfold Listing_reads. rewrite Hplayers, Hroster.
    split; [apply prefix_read_or_else |].
    split; [apply prefix_read_or_else |].
    split.
    { intros H.
      assert (E : truthy (tryGetContext ctx "username") = false)
        by (rewrite (tryGetContext_absent _ _ H); reflexivity).
      split; [apply Listing_roster_input_none | apply Listing_roster_expression_none];
        exact E. }
    split.
    { intros v H Hv.
      assert (E : truthy (tryGetContext ctx "username") = false)
        by (rewrite (tryGetContext_present _ _ _ H); exact Hv).
      split; [apply Listing_roster_input_none | apply Listing_roster_expression_none];
        exact E. }
    intros v H Hv.
    assert (E : truthy (tryGetContext ctx "username") = true)
      by (rewrite (tryGetContext_present _ _ _ H); exact Hv).
    rewrite (Listing_roster_expression _ _ E), (Listing_roster_input _ _ E).
    split; [apply interval_read_coalesce |].
    destruct (truthy_serialized _ Hv) as [username_text Htext].
    exists username_text. do 2 eexists.
    split; [exact Htext |].
    split.
    { rewrite (roster_event_text _ _ _ username_text); [reflexivity |].
      rewrite (tryGetContext_present _ _ _ H). exact Htext. }
    split; [apply (season_read_coalesce ctx (num fullYear)) |].
    apply league_read_or_else.
  - intros ctx' H.
    assert (Hk : forall k, In k context_keys -> tryGetContext ctx' k = tryGetContext ctx k).
    { intros k Hin. unfold tryGetContext. rewrite (H k Hin). reflexivity. }
    split; [apply Lib_app_ext | apply Listing_app_ext];
      rewrite Hk by (simpl; tauto); reflexivity.
  - intros k d Hin Habsent. simpl in Hin.
    destruct Hin as [E | [E | [E | [E | [E | []]]]]];
      injection E as <- <-; apply Lib_app_ext; default_or_other Habsent.
  - intros k d Hin Habsent. simpl in Hin.
    destruct Hin as [E | [E | [E | [E | []]]]];
      injection E as <- <-; apply Listing_app_ext; default_or_other Habsent.
  - intros Habsent. rewrite (tryGetContext_absent _ _ Habsent). reflexivity.
Qed.

Lemma context_values_and_defaults_witness :
  environment_of "PlayersSyncFn" "PLAYERS_S3_PREFIX" (Lib.app ∅)
    = Some (cdk.literal (JStr "sleeper/players"))
  /\ environment_of "PlayersSyncFn" "ROSTER_S3_PREFIX"
       (Lib.app {[ "rosterPrefix" := JStr "data/rosters" ]})
     = Some (cdk.literal (JStr "data/rosters"))
  /\ roster_expression (Lib.app ∅) = Some "rate(10 minutes)"
  /\ roster_expression (Lib.app {[ "rosterEvery" := JStr "15" ]})
     = Some "rate(15 minutes)"
  /\ roster_input (Lib.app ∅)
     = Some ("{" +:+ dq +:+ "username" +:+ dq +:+ ":"
             +:+ dq +:+ "YOUR_SLEEPER_USERNAME" +:+ dq
             +:+ "," +:+ dq +:+ "season" +:+ dq +:+ ":2025}")
  /\ roster_input (Listing.app 2025 {[ "username" := JStr "sleeper_user" ]})
     = Some ("{" +:+ dq +:+ "username" +:+ dq +:+ ":"
             +:+ dq +:+ "sleeper_user" +:+ dq
             +:+ "," +:+ dq +:+ "season" +:+ dq +:+ ":2025}")
  /\ roster_expression (Listing.app 2025 ∅) = None
  /\ Lib.app (<["rosterEvery" := num 10]> ∅) = Lib.app ∅
  /\ Listing.app 2025 (<["playersPrefix" := JStr "sleeper/players"]> ∅)
     = Listing.app 2025 ∅.
Proof.
  destruct (context_values_and_defaults 2025 ∅)
    as (([Hplayers _] & _ & [Hinterval _] & Hevent)
        & (_ & _ & Hnone & _) & _ & Hlib & Hlisting & _).
  destruct Hevent
    as (username_text & season_text & part
        & Hinput & Husername & _ & _ & [Hseason _] & [Hpart _]).
  destruct (context_values_and_defaults 2025 {[ "rosterPrefix" := JStr "data/rosters" ]})
    as ((_ & (_ & Hroster & _) & _) & _).
  destruct (context_values_and_defaults 2025 {[ "rosterEvery" := JStr "15" ]})
    as ((_ & _ & (_ & Hevery & _) & _) & _).
  destruct (context_values_and_defaults 2025 {[ "username" := JStr "sleeper_user" ]})
    as (_ & (_ & _ & _ & _ & Huser) & _).
  destruct (Huser (JStr "sleeper_user")) as [_ Hlisted]; [reflexivity | reflexivity |].
  destruct Hlisted
    as (username_text' & season_text' & part'
        & Htext' & Hinput' & [Hseason' _] & [Hpart' _]).
  vm_compute in Htext'. injection Htext' as <-.
  split; [apply Hplayers; reflexivity |].
  split; [apply (Hroster (JStr "data/rosters")); reflexivity |].
  split; [apply Hinterval; reflexivity |].
  split.
  { rewrite (Hevery (JStr "15")); [vm_compute; reflexivity | reflexivity
                                   | discriminate | discriminate]. }
  split.
  { rewrite Hinput, Husername, Hseason, Hpart by reflexivity.
    vm_compute. reflexivity. }
  split.
  { rewrite Hinput', Hseason', Hpart' by reflexivity.
    vm_compute. reflexivity. }
  split; [apply Hnone; reflexivity |].
  split.
  - apply Hlib; [simpl; tauto | reflexivity].
  - apply Hlisting; [simpl; tauto | reflexivity].
Defined.

(** ** Schedules, and the props of the app *)

Ltac check_exact_time :=
  unfold exact_time_schedules, roster_description_matches; read_stack;
  split;
    [ each_element; repeat split;
      first [ eexists; reflexivity
            | intros [tz Htz]; discriminate Htz
            | intros Hid; discriminate Hid ]
    | first [ exact I | eexists; split; reflexivity ] ].

(** X10.  Every schedule of the stack has its flexible time window off, an
    input and a description; only [PlayersDailySchedule] sets a timezone, so
    the roster and hourly schedules run in the scheduler's default; and the
    description of the roster schedule names the same number of minutes as
    its expression.  Both revisions, every context. *)
Theorem schedules_exact_time (fullYear : Z) (ctx : gmap string any) :
  (exists st,
      Lib.app ctx = Ok st
      /\ exact_time_schedules st /\ roster_description_matches st)
  /\ (exists st,
        Listing.app fullYear ctx = Ok st
        /\ exact_time_schedules st /\ roster_description_matches st).
Proof.
  split.
  - lib_stack. check_exact_time.
  - listing_stack ctx; check_exact_time.
Qed.

(** X11.  The region the app passes to the stack is always a non-empty
    string: the variable [CDK_DEFAULT_REGION] when it is set and not empty,
    and [us-west-2] when it is unset or empty.  The account has no default:
    it is the variable [CDK_DEFAULT_ACCOUNT] as it is, [undefined] when
    unset. *)
Theorem app_region_defaults (process_env : gmap string string) :
  let env := bin.env (bin.props process_env) in
  (exists r, bin.region env = JStr r /\ r <> ""
             /\ (process_env !! "CDK_DEFAULT_REGION" = Some r \/ r = "us-west-2"))
  /\ (forall r, process_env !! "CDK_DEFAULT_REGION" = Some r -> r <> "" ->
                bin.region env = JStr r)
  /\ (process_env !! "CDK_DEFAULT_REGION" = None
      \/ process_env !! "CDK_DEFAULT_REGION" = Some "" ->
      bin.region env = JStr "us-west-2")
  /\ (bin.account env = undefined <-> process_env !! "CDK_DEFAULT_ACCOUNT" = None)
  /\ (forall a, process_env !! "CDK_DEFAULT_ACCOUNT" = Some a ->
                bin.account env = JStr a).
Proof.
  simpl. unfold bin.getenv.
  destruct (process_env !! "CDK_DEFAULT_REGION") as [[| c r] |] eqn:Hregion;
    destruct (process_env !! "CDK_DEFAULT_ACCOUNT") as [a |] eqn:Haccount.
  all: repeat split.
  all: try (intros; congruence).
  all: try (intros [H | H]; congruence).
  all: try (eexists; split; [reflexivity | split; [discriminate | tauto]]).
  all: try (intros ? H ?; injection H as <-; reflexivity).
  all: try (intros ? H; injection H as <-; reflexivity).
Qed.

Lemma app_region_defaults_witness :
  bin.region (bin.env (bin.props {[ "CDK_DEFAULT_REGION" := "eu-west-1" ]}))
  = JStr "eu-west-1".
Proof.
  destruct (app_region_defaults {[ "CDK_DEFAULT_REGION" := "eu-west-1" ]})
    as (_ & Hset & _).
  apply Hset; [reflexivity | discriminate].
Defined.

(** ** References within the stack *)

Ltac check_environment :=
  repeat first
    [ apply map_Forall_empty
    | apply map_Forall_insert_2; [ reflexivity | ]
    | rewrite list_to_map_cons
    | rewrite list_to_map_nil ].

Ltac check_references :=
  unfold no_dangling_reference; read_stack;
  split; [ distinct_elements | ];
  split; [ each_element; reflexivity | ];
  split; [ each_element; reflexivity | ];
  split; [ each_element; reflexivity | ];
  each_element; simpl; check_environment.

(** X12.  In the stack that is built no id is declared twice, and nothing
    dangles: every grant is between a bucket, function or role of the stack,
    every schedule targets a function of the stack through a role of the
    stack, every output and every token in an environment names a construct
    of the stack.  Both revisions, every context. *)
Theorem references_resolve (fullYear : Z) (ctx : gmap string any) :
  (exists st, Lib.app ctx = Ok st /\ no_dangling_reference st)
  /\ (exists st, Listing.app fullYear ctx = Ok st /\ no_dangling_reference st).
Proof.
  split.
  - lib_stack. check_references.
  - listing_stack ctx; check_references.
Qed.

(** ** Reading a quoted string back *)

(** One character, quoted, is read back as that character. *)
Lemma read_chars_quote_char (c : ascii) (fuel : nat) (r : string) :
  read_chars (S fuel) (quote_char c +:+ r)
  = match read_chars fuel r with
    | Some (t, rest) => Some (String c t, rest)
    | None => None
    end.
Proof.
  destruct c as [[] [] [] [] [] [] [] []]; reflexivity.
Qed.

Lemma quote_char_length (c : ascii) (r : string) :
  (S (String.length r) <= String.length (quote_char c +:+ r))%nat.
Proof.
  destruct c as [[] [] [] [] [] [] [] []]; lazy; lia.
Qed.

Lemma quote_chars_length (s r : string) :
  (String.length s + String.length r <= String.length (quote_chars s +:+ r))%nat.
Proof.
  induction s as [| c s IH].
  - change (quote_chars "" +:+ r) with r. simpl. lia.
  - change (quote_chars (String c s)) with (quote_char c +:+ quote_chars s).
    rewrite append_assoc.
    pose proof (quote_char_length c (quote_chars s +:+ r)).
    change (String.length (String c s)) with (S (String.length s)). lia.
Qed.

(** The quoted characters are read back up to the closing quote, whatever
    follows it. *)
Lemma read_chars_quote_chars (s : string) :
  forall (fuel : nat) (r : string),
    (String.length s < fuel)%nat ->
    read_chars fuel (quote_chars s +:+ String (ascii_of_nat 34) r) = Some (s, r).
Proof.
  induction s as [| c s IH]; intros fuel r Hfuel.
  - destruct fuel as [| fuel]; [simpl in Hfuel; lia | reflexivity].
  - destruct fuel as [| fuel]; [simpl in Hfuel; lia |].
    change (quote_chars (String c s)) with (quote_char c +:+ quote_chars s).
    rewrite append_assoc, read_chars_quote_char.
    rewrite IH by (simpl in Hfuel; lia). reflexivity.
Qed.

(** X13.  The quoting of [JSON.stringify] loses nothing and cannot be broken
    out of: a quoted string reads back as the string itself, as one literal
    with nothing after it, so two strings with the same quoted text are
    equal. *)
Theorem quoted_string_reads_back (s : string) :
  read_quoted (QuoteJSONString s) = Some s
  /\ (forall t, QuoteJSONString t = QuoteJSONString s -> t = s).
Proof.
  assert (Hread : forall t, read_quoted (QuoteJSONString t) = Some t).
  { intros t. unfold QuoteJSONString, byte.
    change (String (ascii_of_nat 34) (quote_chars t) +:+ String (ascii_of_nat 34) "")
      with (String (ascii_of_nat 34)
              (quote_chars t +:+ String (ascii_of_nat 34) "")).
    unfold read_quoted.
    change (N_of_ascii (ascii_of_nat 34) =? 34)%N with true. cbv iota.
    rewrite read_chars_quote_chars; [reflexivity |].
    pose proof (quote_chars_length t (String (ascii_of_nat 34) "")).
    change (String.length (String (ascii_of_nat 34) "")) with 1%nat in H.
    change (String.length (String (ascii_of_nat 34)
              (quote_chars t +:+ String (ascii_of_nat 34) "")))
      with (S (String.length (quote_chars t +:+ String (ascii_of_nat 34) ""))).
    lia. }
  split; [apply Hread |].
  intros t H. apply (f_equal read_quoted) in H.
  rewrite !Hread in H. congruence.
Qed.

Lemma append_inj_l (a b c : string) : a +:+ b = a +:+ c -> b = c.
Proof.
  induction a as [| x a IH]; intros H; [exact H |].
  change (String x (a +:+ b) = String x (a +:+ c)) in H.
  injection H as H. exact (IH H).
Qed.

(** The text of an object whose first property is a string: a fixed
    prefix, the quoted characters, the closing quote, and the rest. *)
Lemma object_text_first_string (key value others : string) :
  "{" +:+ ((QuoteJSONString key +:+ ":" +:+ QuoteJSONString value)
           +:+ "," +:+ others) +:+ "}"
  = ("{" +:+ QuoteJSONString key +:+ ":" +:+ String (ascii_of_nat 34) "")
    +:+ (quote_chars value
         +:+ String (ascii_of_nat 34) ("," +:+ others +:+ "}")).
Proof.
  unfold QuoteJSONString, byte. rewrite !append_assoc. reflexivity.
Qed.

(** Two events that differ in the username only are different texts. *)
Lemma stringify_username_inj (u u' : string) (season : number) (leagueId : any) :
  JSON_stringify [("username", JStr u); ("season", JNum season);
                  ("league_id", leagueId)]
  = JSON_stringify [("username", JStr u'); ("season", JNum season);
                    ("league_id", leagueId)] ->
  u = u'.
Proof.
  unfold JSON_stringify, serialized_properties.
  cbn [omap list_omap SerializeJSONProperty fmap option_fmap option_map map].
  rewrite !join_cons_cons, !object_text_first_string.
  intros H. apply append_inj_l in H.
  apply (f_equal (read_chars (S (String.length u + String.length u')))) in H.
  rewrite !read_chars_quote_chars in H by lia.
  injection H as H. exact H.
Qed.

(** X14.  The event of the roster schedule determines the username: two
    contexts that differ only in a non-empty username never give the same
    input, whatever characters the usernames contain.  Both revisions. *)
Theorem event_determines_username
    (fullYear : Z) (ctx : gmap string any) (u u' : string) :
  u <> "" -> u' <> "" ->
  (roster_input (Lib.app (<["username" := JStr u]> ctx))
   = roster_input (Lib.app (<["username" := JStr u']> ctx)) -> u = u')
  /\ (roster_input (Listing.app fullYear (<["username" := JStr u]> ctx))
      = roster_input (Listing.app fullYear (<["username" := JStr u']> ctx)) ->
      u = u').
Proof.
  intros Hu Hu'.
  pose proof (truthy_nonempty_string u Hu) as Tu.
  pose proof (truthy_nonempty_string u' Hu') as Tu'.
  split; intros H.
  - rewrite !Lib_roster_input in H.
    rewrite !tryGetContext_insert_eq in H.
    rewrite !tryGetContext_insert_ne in H by discriminate.
    rewrite (or_else_truthy_value _ _ Tu), (or_else_truthy_value _ _ Tu') in H.
    eapply stringify_username_inj. apply (inj Some). exact H.
  - rewrite !Listing_roster_input in H
      by (rewrite tryGetContext_insert_eq; assumption).
    rewrite !tryGetContext_insert_eq in H.
    rewrite !tryGetContext_insert_ne in H by discriminate.
    eapply stringify_username_inj. apply (inj Some). exact H.
Qed.

Lemma event_determines_username_witness :
  roster_input (Lib.app (<["username" := JStr "ann"]> ∅))
  <> roster_input (Lib.app (<["username" := JStr "bob"]> ∅)).
Proof.
  destruct (event_determines_username 2025 ∅ "ann" "bob") as [Hlib _];
    [discriminate | discriminate |].
  intros H. apply Hlib in H. discriminate H.
Defined.

(** ** What the context decides *)

(** X15.  In the listing of [src/infra/README.md] the username decides the
    roster schedule and nothing else: the stack built from a context is the
    stack built from the same context without the username, with at most
    the construct [RosterEveryNMinutes] added; the grants are the same. *)
Theorem username_decides_roster_schedule_only (fullYear : Z) (ctx : gmap string any) :
  exists st st0,
    Listing.app fullYear ctx = Ok st
    /\ Listing.app fullYear (delete "username" ctx) = Ok st0
    /\ List.filter (fun ic => negb (String.eqb (fst ic) "RosterEveryNMinutes"))
                   (children st)
       = children st0
    /\ grants st = grants st0.
Proof.
  unfold Listing.app, Listing.AiGmSleeperStack. cbv zeta.
  rewrite tryGetContext_delete_eq.
  rewrite !tryGetContext_delete_ne by discriminate.
  change (truthy undefined) with false.
  destruct (truthy (tryGetContext ctx "username"));
    run_constructor; do 2 eexists;
    (split; [reflexivity |]); (split; [reflexivity |]);
    read_stack; split; reflexivity.
Qed.

(** X16.  The context never changes the bucket, the scheduler roles, the
    grants, the outputs, the players schedule, or the id, handler, memory
    size and timeout of a function: any two contexts give stacks that agree
    on all of these.  Both revisions. *)
Theorem context_cannot_change_fixed_part
    (fullYear : Z) (ctx ctx' : gmap string any) :
  (exists st st',
      Lib.app ctx = Ok st /\ Lib.app ctx' = Ok st' /\ same_fixed_part st st')
  /\ (exists st st',
        Listing.app fullYear ctx = Ok st
        /\ Listing.app fullYear ctx' = Ok st'
        /\ same_fixed_part st st').
Proof.
  split.
  - unfold Lib.app, Lib.AiGmSleeperStack. run_constructor.
    do 2 eexists. split; [reflexivity |]. split; [reflexivity |].
    unfold same_fixed_part. read_stack. repeat split.
  - unfold Listing.app, Listing.AiGmSleeperStack. cbv zeta.
    destruct (truthy (tryGetContext ctx "username"));
      destruct (truthy (tryGetContext ctx' "username"));
      run_constructor; do 2 eexists;
      (split; [reflexivity |]); (split; [reflexivity |]);
      unfold same_fixed_part; read_stack; repeat split.
Qed.
